(** * prow/prstatus: the pull-request status dashboard backend

    A shallow embedding of [prow/prstatus/prstatus.go]: the search-query
    builder, the explicit-scope predicate, the cursor paginator and the
    request handler, followed by the properties the specification states
    about them.

    Go strings are byte strings and are modelled by [string]; Go maps by
    [gmap]; the collaborators reached through interfaces (the session store,
    the REST and GraphQL clients, the JSON encoder) are parameters whose
    answers are data. *)

From Stdlib Require Import ZArith String Ascii List Bool Lia.
From stdpp Require Import base option gmap strings list fin_maps.

Local Open Scope string_scope.
Local Open Scope list_scope.
Local Open Scope Z_scope.

(** ** The parts of Go's [strings] and [fmt] packages the source uses *)

Module strings.

(** [strings.HasPrefix(s, prefix)]. *)
Definition HasPrefix (s prefix : string) : bool := String.prefix prefix s.

(** [strings.Contains(s, substr)]: [substr] occurs at some offset of [s]. *)
Fixpoint Contains (s substr : string) : bool :=
  String.prefix substr s ||
  match s with
  | EmptyString => false
  | String _ s' => Contains s' substr
  end.

(** [strings.Join(elems, sep)]. *)
Definition Join (elems : list string) (sep : string) : string :=
  String.concat sep elems.

(** [strings.Split(s, sep)] for a separator of one byte, which is the only
    way the source calls it ([strings.Split(q, " ")]).  The result is never
    empty: a string without the separator is returned as its only element,
    and two adjacent separators delimit an empty element. *)
Fixpoint Split (s : string) (sep : ascii) : list string :=
  match s with
  | EmptyString => [EmptyString]
  | String c s' =>
      if Ascii.eqb c sep then EmptyString :: Split s' sep
      else match Split s' sep with
           | tkn :: tkns => String c tkn :: tkns
           | [] => [String c EmptyString]
           end
  end.

End strings.

(** The double quote, written by its code so that literals stay readable. *)
Definition dquote : string := String "034"%char EmptyString.

(** [fmt.Sprintf("repo:\"%s\"", v)]: the verb [%s] copies a string operand. *)
Definition Sprintf_repo (v : string) : string :=
  "repo:" +:+ dquote +:+ v +:+ dquote.

(** ** Data model *)

(** [DashboardAgent]: only [repos] takes part in computations; the OAuth
    configuration and the logger are reached through the handler's
    collaborators below. *)
Record DashboardAgent := { repos : list string }.

(** ** Query builder *)

(** The [for i := range da.repos] loop of [ConstructSearchQuery]. *)
Definition appendRepoTokens (tokens : list string) (rs : list string) : list string :=
  fold_left (fun tokens r => tokens ++ [Sprintf_repo r]) rs tokens.

Definition ConstructSearchQuery (da : DashboardAgent) (login : string) : string :=
  let tokens := ["is:pr"; "state:open"; "author:" +:+ login] in
  let tokens := appendRepoTokens tokens (repos da) in
  strings.Join tokens " ".

(** The [for _, tkn := range tkns] loop of [queryConstrainsRepos], with its
    early [return true]. *)
Fixpoint queryConstrainsRepos_loop (tkns : list string) : bool :=
  match tkns with
  | [] => false
  | tkn :: tkns' =>
      if strings.HasPrefix tkn "org:" || strings.HasPrefix tkn "repo:" then true
      else queryConstrainsRepos_loop tkns'
  end.

Definition queryConstrainsRepos (q : string) : bool :=
  let tkns := strings.Split q " "%char in
  queryConstrainsRepos_loop tkns.

(** A token that names an organisation or a repository. *)
Definition scope_token (tkn : string) : Prop :=
  strings.HasPrefix tkn "org:" = true \/ strings.HasPrefix tkn "repo:" = true.

(** The byte [c] occurs in [s]. *)
Fixpoint has_byte (c : ascii) (s : string) : bool :=
  match s with
  | EmptyString => false
  | String c' s' => Ascii.eqb c' c || has_byte c s'
  end.

(** The specification's reading of the predicate: the query is cut into
    tokens at white space (space, tab, line feed, vertical tab, form feed,
    carriage return), and some token names an organisation or a repository. *)
Definition hasExplicitScope (query : string) : Prop :=
  exists tkn, In tkn (String.words query) /\ scope_token tkn.

(** The scope tokens that follow the base query, each behind one space. *)
Fixpoint scope_suffix (rs : list string) : string :=
  match rs with
  | [] => EmptyString
  | id :: rs => " " +:+ Sprintf_repo id +:+ scope_suffix rs
  end.

Definition tab : string := String "009"%char EmptyString.

(** A query whose scope token follows a tab. *)
Definition tab_separated_query : string := "is:pr" +:+ tab +:+ "repo:kubernetes/test-infra".

(** ** GraphQL scalars and the records of the search query *)

(** [githubql.Int] is a 32-bit integer; Go's [int] has 64 bits on the
    platforms Prow is built for.  Both are carried by [Z]: [Int_range] is the
    range of the former, [int_wrap] the wrap-around of the latter. *)
Definition Int_range (z : Z) : Prop := - 2 ^ 31 <= z < 2 ^ 31.

Definition int_wrap (z : Z) : Z := (z + 2 ^ 63) mod 2 ^ 64 - 2 ^ 63.

(** The conversion [int(x)] of a [githubql.Int]. *)
Definition int_of_Int (x : Z) : Z := int_wrap x.

(** [githubql.ID] is [interface{}]: the identifiers the service sends are
    strings, but the type admits any Go value, among them values the JSON
    encoder refuses (channels, functions). *)
Inductive ID :=
| IDString (s : string)
| IDUnsupported.

Record Label := { Label_ID : ID; Label_Name : string }.

Record LabelNode := { Node_Label : Label }.

Record PullRequest := {
  Number : Z;
  Merged : bool;
  Title : string;
  Author_Login : string;
  BaseRef_Name : string;
  BaseRef_Prefix : string;
  HeadRefOID : string;
  Repository_Name : string;
  Repository_NameWithOwner : string;
  Repository_Owner_Login : string;
  Labels_Nodes : list LabelNode;
  Milestone_ID : ID;
  Milestone_Closed : bool
}.

Record SearchNode := { Node_PullRequest : PullRequest }.

Record searchQuery := {
  RateLimit_Cost : Z;
  RateLimit_Remaining : Z;
  PageInfo_HasNextPage : bool;
  PageInfo_EndCursor : string;
  Search_Nodes : list SearchNode
}.

(** The two integers of a page lie in the range of their type. *)
Definition searchQuery_typed (sq : searchQuery) : Prop :=
  Int_range (RateLimit_Cost sq) /\ Int_range (RateLimit_Remaining sq).

(** [UserData], the response envelope. *)
Record UserData := { Login : bool; PullRequests : list PullRequest }.

(** ** Errors and log records *)

(** Modelled from the spec: what made a remote call fail.  Go's [error] is an
    interface of which the source reads [Error()] only; the specification
    (4.2, 7) tells an authorization failure, which the service signals by an
    HTTP status, from every other failure. *)
Inductive cause :=
| HTTPStatus (code : Z)
| Network
| Malformed.

Record error := { err_cause : cause; Error : string }.

Inductive fmt_arg :=
| ArgString (s : string)
| ArgInt (n : Z).

(** The calls made on the logrus entry [da.log], with their operands as
    passed (the rendering of the line is logrus's). *)
Inductive LogEntry :=
| Infof (format : string) (args : list fmt_arg)
| WithError_Errorf (err : error) (format : string) (args : list fmt_arg)
| WithError_Error (err : error) (msg : string).

(** ** Paginator *)

(** The values held by the [vars] map of a query: a [githubql.String] or a
    [*githubql.String], [None] being the nil pointer. *)
Inductive VarValue :=
| VString (s : string)
| VStringPtr (p : option string).

(** The [githubClient] interface.  A client is a value of some type [C]; a
    call answers with the filled-in [searchQuery] or with an error, and
    leaves the client in a new state. *)
Class githubClient (C : Type) := {
  Query : C -> gmap string VarValue -> C * (searchQuery + error)
}.

(** How the [for] loop of [QueryPullRequests] is left. *)
Inductive loop_exit :=
| ReturnErr (err : error)
| Break (prs : list PullRequest) (totalCost remaining : Z).

(** The inner loop [for _, n := range sq.Search.Nodes]. *)
Definition appendNodes (prs : list PullRequest) (nodes : list SearchNode) : list PullRequest :=
  fold_left (fun prs n => prs ++ [Node_PullRequest n]) nodes prs.

(** The [for] loop; [fuel] bounds the number of pages requested, the loop
    itself has no bound. *)
Fixpoint QueryPullRequests_loop {C} `{githubClient C} (fuel : nat) (ghc : C)
    (vars : gmap string VarValue) (prs : list PullRequest)
    (totalCost remaining : Z) : option (C * loop_exit) :=
  match fuel with
  | O => None
  | S fuel' =>
      match Query ghc vars with
      | (ghc, inr err) => Some (ghc, ReturnErr err)
      | (ghc, inl sq) =>
          let totalCost := int_wrap (totalCost + int_of_Int (RateLimit_Cost sq)) in
          let remaining := int_of_Int (RateLimit_Remaining sq) in
          let prs := appendNodes prs (Search_Nodes sq) in
          if negb (PageInfo_HasNextPage sq) then Some (ghc, Break prs totalCost remaining)
          else
            let vars := <["searchCursor" := VStringPtr (Some (PageInfo_EndCursor sq))]> vars in
            QueryPullRequests_loop fuel' ghc vars prs totalCost remaining
      end
  end.

Definition searchLogFormat : string :=
  "Search for query " +:+ dquote +:+ "%s" +:+ dquote +:+ " cost %d point(s). %d remaining.".

(** [QueryPullRequests]: the client after the calls, the log records emitted
    and the pair the Go function returns. *)
Definition QueryPullRequests {C} `{githubClient C} (fuel : nat) (da : DashboardAgent)
    (ghc : C) (query : string)
    : option (C * list LogEntry * (list PullRequest * option error)) :=
  let prs : list PullRequest := [] in
  let vars : gmap string VarValue :=
    <["searchCursor" := VStringPtr None]> (<["query" := VString query]> ∅) in
  match QueryPullRequests_loop fuel ghc vars prs 0 0 with
  | None => None
  | Some (ghc, ReturnErr err) => Some (ghc, [], ([], Some err))
  | Some (ghc, Break prs totalCost remaining) =>
      Some (ghc,
            [Infof searchLogFormat [ArgString query; ArgInt totalCost; ArgInt remaining]],
            (prs, None))
  end.

(** An exchange with a client: starting from [ghc] and [vars], every page of
    [pages] is answered with [hasNextPage] set and the next request carries
    its end cursor; the last request is answered by [final], an error or a
    page without [hasNextPage]. *)
Definition final_answer (r : searchQuery + error) : Prop :=
  match r with
  | inl sq => PageInfo_HasNextPage sq = false
  | inr _ => True
  end.

Inductive Exchange {C} `{githubClient C}
  : C -> gmap string VarValue -> list searchQuery -> searchQuery + error -> C -> Prop :=
| Exchange_final ghc vars r ghc' :
    Query ghc vars = (ghc', r) ->
    final_answer r ->
    Exchange ghc vars [] r ghc'
| Exchange_page ghc vars sq ghc' pages r ghc'' :
    Query ghc vars = (ghc', inl sq) ->
    PageInfo_HasNextPage sq = true ->
    Exchange ghc' (<["searchCursor" := VStringPtr (Some (PageInfo_EndCursor sq))]> vars) pages r ghc'' ->
    Exchange ghc vars (sq :: pages) r ghc''.

(** The first request of [QueryPullRequests]. *)
Definition initial_vars (query : string) : gmap string VarValue :=
  <["searchCursor" := VStringPtr None]> (<["query" := VString query]> ∅).

(** The pull requests of a run of pages, in the order the service sent them. *)
Definition pull_requests_of (pages : list searchQuery) : list PullRequest :=
  concat (map (fun sq => map Node_PullRequest (Search_Nodes sq)) pages).

Definition total_cost_of (pages : list searchQuery) : Z :=
  fold_right Z.add 0 (map RateLimit_Cost pages).

(** A stand-in for the remote service: it answers from a script, whatever the
    request, and keeps the requests it received. *)
Record StubClient := {
  script : list (searchQuery + error);
  received : list (gmap string VarValue)
}.

Definition stub_exhausted : error :=
  {| err_cause := Malformed; Error := "no scripted answer left" |}.

#[export] Instance StubClient_githubClient : githubClient StubClient := {
  Query c vars :=
    match script c with
    | [] => ({| script := []; received := received c ++ [vars] |}, inr stub_exhausted)
    | r :: rest => ({| script := rest; received := received c ++ [vars] |}, r)
    end
}.

(** ** Request handler: data *)

Definition loginSession : string := "github_login".
Definition githubEndpoint : string := "https://api.github.com".
Definition tokenSession : string := "access-token-session".
Definition tokenKey : string := "access-token".
Definition loginKey : string := "login".

(** [oauth2.Token], as far as the handler reads it: the access token and what
    [token.Valid()] answers when the request is served. *)
Record Token := { AccessToken : string; Token_Valid : bool }.

(** [gogithub.User]; [Login] is a [*string]. *)
Record User := { User_Login : option string }.

(** The values of [session.Values] (a [map[interface{}]interface{}]). *)
Inductive SessionValue :=
| SToken (t : Token)
| SString (s : string).

Record Session := {
  Values : gmap string SessionValue;
  Options_MaxAge : Z
}.

(** Instants and durations count nanoseconds, as [time.Duration] does. *)
Definition time_Hour : Z := 3600 * 1000000000.

Record Cookie := {
  Name : string;
  Value : string;
  Path : string;
  Expires : Z;
  MaxAge : Z;
  Secure : bool
}.

(** [url.Values] and its [Get]: the first value of the key, or the empty
    string when there is none. *)
Definition Values_Get (v : gmap string (list string)) (key : string) : string :=
  match v !! key with
  | Some (x :: _) => x
  | _ => EmptyString
  end.

Definition nonempty (s : string) : bool :=
  match s with
  | EmptyString => false
  | String _ _ => true
  end.

(** The request: the outcome of [r.ParseForm()] with the form it leaves in
    [r.Form], and the parsed query string [r.URL.Query()]. *)
Record Request := {
  ParseForm : option error;
  Form : gmap string (list string);
  URL_Query : gmap string (list string)
}.

(** The collaborators of one request, each given by its answers. *)
Record Collaborators := {
  (** [da.goac.CookieStore.Get(r, tokenSession)] *)
  CookieStore_Get : Session * option error;
  (** [session.Save(r, w)], by the session being saved *)
  Session_Save : Session -> option error;
  (** [grc.GetUser("")], by the access token of the client *)
  GetUser : string -> option User * option error;
  (** [queryHandler.QueryPullRequests(ctx, ghc, query)], by the access token
      and the endpoint of [ghc] and by the query *)
  queryHandler : string -> string -> string -> list PullRequest * option error;
  (** [json.Marshal(data)] *)
  json_Marshal : UserData -> string + error;
  (** [time.Now()]; each path of the handler that reads the clock is given
      the same instant *)
  time_Now : Z
}.

(** The [http.ResponseWriter]: the [Set-Cookie] headers added by
    [http.SetCookie], the status once the header is written, and the body. *)
Record ResponseWriter := {
  SetCookies : list Cookie;
  status : option Z;
  body : string
}.

(** What a request has done so far. *)
Inductive RemoteCall :=
| CallGetUser (accessToken : string)
| CallQueryPullRequests (accessToken endpoint query : string).

Record HandlerState := {
  w : ResponseWriter;
  session : Session;
  saves : list (Session * option error);
  log : list LogEntry;
  remote_calls : list RemoteCall
}.

(** The state in which the handler starts, with the session the store
    handed out. *)
Definition initial_state (s : Session) : HandlerState :=
  {| w := {| SetCookies := []; status := None; body := EmptyString |};
     session := s; saves := []; log := []; remote_calls := [] |}.

(** ** Request handler: a monad for state and early exit *)

Inductive result (A : Type) :=
| Done (a : A)
| Returned
| Panicked.
Arguments Done {A} a.
Arguments Returned {A}.
Arguments Panicked {A}.

Definition M (A : Type) : Type := HandlerState -> HandlerState * result A.

Definition ret {A} (a : A) : M A := fun st => (st, Done a).

Definition bind {A B} (m : M A) (k : A -> M B) : M B :=
  fun st =>
    match m st with
    | (st', Done a) => k a st'
    | (st', Returned) => (st', Returned)
    | (st', Panicked) => (st', Panicked)
    end.

(** The statement [return] of the handler. *)
Definition return_ {A} : M A := fun st => (st, Returned).

(** A nil dereference. *)
Definition panic {A} : M A := fun st => (st, Panicked).

Notation "'let*' x := m 'in' k" := (bind m (fun x => k))
  (at level 10, x name, m at level 100, k at level 200).

Definition modify (f : HandlerState -> HandlerState) : M unit :=
  fun st => (f st, Done tt).

Definition set_w (f : ResponseWriter -> ResponseWriter) (st : HandlerState) : HandlerState :=
  {| w := f (w st); session := session st; saves := saves st; log := log st;
     remote_calls := remote_calls st |}.

Definition set_session (f : Session -> Session) (st : HandlerState) : HandlerState :=
  {| w := w st; session := f (session st); saves := saves st; log := log st;
     remote_calls := remote_calls st |}.

Definition newline : string := String "010"%char EmptyString.

(** [fmt.Sprintf(" repo:\"%s\"", v)], the token the handler appends. *)
Definition Sprintf_space_repo (v : string) : string :=
  " repo:" +:+ dquote +:+ v +:+ dquote.

(** [w.WriteHeader(code)]: only the first call sets the status. *)
Definition WriteHeader (code : Z) (rw : ResponseWriter) : ResponseWriter :=
  {| SetCookies := SetCookies rw;
     status := match status rw with None => Some code | Some c => Some c end;
     body := body rw |}.

(** [w.Write(data)]: writes the header with status 200 if none was written,
    then appends to the body. *)
Definition Write (data : string) (rw : ResponseWriter) : ResponseWriter :=
  let rw := WriteHeader 200 rw in
  {| SetCookies := SetCookies rw; status := status rw; body := body rw +:+ data |}.

(** ** Request handler *)

Section Handler.

Variable da : DashboardAgent.
Variable env : Collaborators.
Variable r : Request.

Definition logged (e : LogEntry) : M unit :=
  modify (fun st => {| w := w st; session := session st; saves := saves st;
                       log := log st ++ [e]; remote_calls := remote_calls st |}).

Definition called (c : RemoteCall) : M unit :=
  modify (fun st => {| w := w st; session := session st; saves := saves st;
                       log := log st; remote_calls := remote_calls st ++ [c] |}).

(** [http.SetCookie(w, cookie)]. *)
Definition http_SetCookie (c : Cookie) : M unit :=
  modify (set_w (fun rw => {| SetCookies := SetCookies rw ++ [c];
                              status := status rw; body := body rw |})).

(** [http.Error(w, msg, code)]: the status, then the message and a line
    feed as the body. *)
Definition http_Error (msg : string) (code : Z) : M unit :=
  modify (set_w (fun rw =>
    let rw := WriteHeader code rw in
    {| SetCookies := SetCookies rw; status := status rw;
       body := body rw +:+ msg +:+ newline |})).

Definition w_Write (data : string) : M unit := modify (set_w (Write data)).

(** [session.Save(r, w)]: the call and its answer are recorded. *)
Definition session_Save : M (option error) :=
  fun st =>
    let err := Session_Save env (session st) in
    ({| w := w st; session := session st; saves := saves st ++ [(session st, err)];
        log := log st; remote_calls := remote_calls st |}, Done err).

(** Reading through a pointer. *)
Definition deref {A} (p : option A) : M A :=
  match p with
  | Some a => ret a
  | None => panic
  end.

(** The closure [serverError] of the handler. *)
Definition serverError (action : string) (err : error) : M unit :=
  let* _ := logged (WithError_Errorf err "Error %s." [ArgString action]) in
  let msg := "500 Internal server error " +:+ action +:+ ": " +:+ Error err in
  http_Error msg 500.

(** The test [strings.Contains(err.Error(), "401")] by which the handler
    takes a failure of [GetUser] for a rejected token. *)
Definition rejected (err : error) : bool := strings.Contains (Error err) "401".

(** The block [if ok && token.Valid() { ... }]; [token] is [None] when the
    type assertion on the session value fails. *)
Definition validateToken (token : option Token) : M (option User) :=
  match token with
  | Some token =>
      if Token_Valid token then
        let* _ := called (CallGetUser (AccessToken token)) in
        let '(user, err) := GetUser env (AccessToken token) in
        match err with
        | Some err =>
            if rejected err then
              let* _ := modify (set_session (fun s =>
                        {| Values := Values s; Options_MaxAge := -1 |})) in
              let* serr := session_Save in
              match serr with
              | Some err =>
                  let* _ := serverError "Error with saving invalidated session" err in
                  return_
              | None =>
                  let* _ := http_SetCookie
                        {| Name := loginSession; Value := EmptyString; Path := "/";
                           Expires := time_Now env + (- time_Hour) * 24;
                           MaxAge := -1; Secure := true |} in
                  ret user
              end
            else
              let* _ := serverError "Error with getting user login" err in
              return_
        | None => ret user
        end
      else ret None
  | None => ret None
  end.

(** The query the handler starts from: the constructed one, or the form
    value [query] when the form parses and the value is not empty. *)
Definition chosenQuery (login : string) : string :=
  let query := ConstructSearchQuery da login in
  match ParseForm r with
  | None =>
      let q := Values_Get (Form r) "query" in
      if nonempty q then q else query
  | Some _ => query
  end.

(** The block [if !queryConstrainsRepos(query) { ... }]. *)
Definition limitToRepos (query : string) : string :=
  if negb (queryConstrainsRepos query) then
    fold_left (fun query v => query +:+ Sprintf_space_repo v) (repos da) query
  else query.

(** The block [if user != nil { ... }]. *)
Definition serveUser (token : option Token) (user : User) (data : UserData) : M UserData :=
  let* login := deref (User_Login user) in
  let data := {| Login := true; PullRequests := PullRequests data |} in
  let* _ := http_SetCookie
        {| Name := loginSession; Value := login; Path := "/";
           Expires := time_Now env + time_Hour * 24 * 30;
           MaxAge := 0; Secure := true |} in
  let* _ := modify (set_session (fun s =>
            {| Values := <[loginKey := SString login]> (Values s);
               Options_MaxAge := Options_MaxAge s |})) in
  let* serr := session_Save in
  match serr with
  | Some err => let* _ := serverError "Save oauth session" err in return_
  | None =>
      let* token := deref token in
      let query := chosenQuery login in
      let query := limitToRepos query in
      let* _ := called (CallQueryPullRequests (AccessToken token) githubEndpoint query) in
      let '(pullRequests, err) := queryHandler env (AccessToken token) githubEndpoint query in
      match err with
      | Some err => let* _ := serverError "Error with querying user data." err in return_
      | None => ret {| Login := Login data; PullRequests := pullRequests |}
      end
  end.

(** From [json.Marshal(data)] to the end of the handler.  When the encoder
    fails it returns a nil slice, which [w.Write] is then given. *)
Definition writeResponse (data : UserData) : M unit :=
  let '(marshaledData, err) :=
    match json_Marshal env data with
    | inl bytes => (bytes, None)
    | inr err => (EmptyString, Some err)
    end in
  let* _ := match err with
          | Some err => logged (WithError_Error err "Error with marshalling user data.")
          | None => ret tt
          end in
  let v := Values_Get (URL_Query r) "var" in
  if nonempty v then
    let* _ := w_Write ("var " +:+ v +:+ " = ") in
    let* _ := w_Write marshaledData in
    w_Write ";"
  else w_Write marshaledData.

(** The handler: the state it leaves and, when it runs to its end, the
    [UserData] it serialized. *)
Definition HandlePrStatus : HandlerState * result UserData :=
  let '(session, err) := CookieStore_Get env in
  match err with
  | Some err =>
      (let* _ := serverError "Error with getting git token session." err in return_)
        (initial_state session)
  | None =>
      let token :=
        match Values session !! tokenKey with
        | Some (SToken t) => Some t
        | _ => None
        end in
      let data := {| Login := false; PullRequests := [] |} in
      (let* user := validateToken token in
       let* data := match user with
                  | Some user => serveUser token user data
                  | None => ret data
                  end in
       let* _ := writeResponse data in
       ret data) (initial_state session)
  end.

End Handler.

(** ** Concrete inputs *)

Definition pr (n : Z) : PullRequest :=
  {| Number := n; Merged := false; Title := "Fix flaky test";
     Author_Login := "alice";
     BaseRef_Name := "master"; BaseRef_Prefix := "refs/heads/";
     HeadRefOID := "0123abcd";
     Repository_Name := "test-infra";
     Repository_NameWithOwner := "kubernetes/test-infra";
     Repository_Owner_Login := "kubernetes";
     Labels_Nodes := [];
     Milestone_ID := IDString "m1"; Milestone_Closed := false |}.

(** A page holding the pull requests [first .. first + count - 1]. *)
Definition page (first count : nat) (remaining : Z) (hasNextPage : bool)
    (endCursor : string) : searchQuery :=
  {| RateLimit_Cost := 1; RateLimit_Remaining := remaining;
     PageInfo_HasNextPage := hasNextPage; PageInfo_EndCursor := endCursor;
     Search_Nodes :=
       map (fun i => {| Node_PullRequest := pr (Z.of_nat i) |}) (seq first count) |}.

Definition page1 : searchQuery := page 1 40 4999 true "c40".
Definition page2 : searchQuery := page 41 40 4998 true "c80".
Definition page3 : searchQuery := page 81 20 4997 false "c100".

(** The service answering three pages of 40, 40 and 20 results. *)
Definition stub_three_pages : StubClient :=
  {| script := [inl page1; inl page2; inl page3]; received := [] |}.

Definition transport_error : error :=
  {| err_cause := Network; Error := "connection reset by peer" |}.

(** The service failing on the second page. *)
Definition stub_error_on_page2 : StubClient :=
  {| script := [inl page1; inr transport_error; inl page3]; received := [] |}.

Definition with_cursor (c : string) (vars : gmap string VarValue) : gmap string VarValue :=
  <["searchCursor" := VStringPtr (Some c)]> vars.

Definition agent : DashboardAgent :=
  {| repos := ["kubernetes/test-infra"; "kubernetes/kubernetes"] |}.

(** The requests the paginator sends for the query [is:pr]. *)
Definition request0 : gmap string VarValue := initial_vars "is:pr".
Definition request1 : gmap string VarValue := with_cursor "c40" request0.
Definition request2 : gmap string VarValue := with_cursor "c80" request1.

(** The stubs after the paginator has run against them. *)
Definition stub_three_pages_end : StubClient :=
  {| script := []; received := [request0; request1; request2] |}.

Definition stub_error_on_page2_end : StubClient :=
  {| script := [inl page3]; received := [request0; request1] |}.

(** *** Requests and collaborators of the handler *)

Definition token_alice : Token := {| AccessToken := "gho_alice"; Token_Valid := true |}.

Definition session_with_token : Session :=
  {| Values := {[ tokenKey := SToken token_alice ]}; Options_MaxAge := 2592000 |}.

Definition session_without_token : Session :=
  {| Values := ∅; Options_MaxAge := 2592000 |}.

Definition user_alice : User := {| User_Login := Some "alice" |}.

(** The service refusing the token. *)
Definition bad_credentials : error :=
  {| err_cause := HTTPStatus 401;
     Error := "GET https://api.github.com/user: 401 Bad credentials []" |}.

(** The service being unavailable. *)
Definition service_unavailable : error :=
  {| err_cause := HTTPStatus 503;
     Error := "GET https://api.github.com/user: 503 Service Unavailable []" |}.

(** A connection reset; the local port of the connection is 40112. *)
Definition connection_reset : error :=
  {| err_cause := Network;
     Error := "Get https://api.github.com/user: read tcp 10.8.0.3:40112->140.82.113.6:443: read: connection reset by peer" |}.

Definition store_failure : error :=
  {| err_cause := Malformed; Error := "securecookie: the value is too long" |}.

Definition unsupported_type : error :=
  {| err_cause := Malformed; Error := "json: unsupported type: chan int" |}.

Definition ID_supported (i : ID) : bool :=
  match i with
  | IDString _ => true
  | IDUnsupported => false
  end.

Definition PullRequest_supported (p : PullRequest) : bool :=
  ID_supported (Milestone_ID p)
  && forallb (fun n => ID_supported (Label_ID (Node_Label n))) (Labels_Nodes p).

(** A stand-in for the JSON encoder: it refuses a value holding an
    unsupported identifier, and otherwise renders the login flag and the
    titles of the pull requests ([null] for the nil slice). *)
Definition encode (data : UserData) : string + error :=
  if forallb PullRequest_supported (PullRequests data) then
    inl ("{" +:+ dquote +:+ "Login" +:+ dquote +:+ ":"
         +:+ (if Login data then "true" else "false")
         +:+ "," +:+ dquote +:+ "PullRequests" +:+ dquote +:+ ":"
         +:+ match PullRequests data with
             | [] => "null"
             | prs =>
                 "[" +:+ String.concat ","
                           (map (fun p => dquote +:+ Title p +:+ dquote) prs) +:+ "]"
             end
         +:+ "}")
  else inr unsupported_type.

Definition collaborators (s : Session) (save : option error)
    (user : option User * option error)
    (found : list PullRequest * option error) : Collaborators :=
  {| CookieStore_Get := (s, None);
     Session_Save := fun _ => save;
     GetUser := fun _ => user;
     queryHandler := fun _ _ _ => found;
     json_Marshal := encode;
     time_Now := 1700000000 * 1000000000 |}.

Definition env_logged_out : Collaborators :=
  collaborators session_without_token None (None, None) ([], None).

Definition env_rejected : Collaborators :=
  collaborators session_with_token None (None, Some bad_credentials) ([], None).

Definition env_rejected_save_fails : Collaborators :=
  collaborators session_with_token (Some store_failure) (None, Some bad_credentials) ([], None).

Definition env_unavailable : Collaborators :=
  collaborators session_with_token None (None, Some service_unavailable) ([], None).

Definition env_connection_reset : Collaborators :=
  collaborators session_with_token None (None, Some connection_reset) ([], None).

Definition env_logged_in : Collaborators :=
  collaborators session_with_token None (Some user_alice, None) ([pr 1; pr 2], None).

(** A pull request whose milestone identifier the encoder refuses. *)
Definition pr_unsupported : PullRequest :=
  {| Number := 7; Merged := false; Title := "Bump dependency";
     Author_Login := "alice";
     BaseRef_Name := "master"; BaseRef_Prefix := "refs/heads/";
     HeadRefOID := "89abcdef";
     Repository_Name := "test-infra";
     Repository_NameWithOwner := "kubernetes/test-infra";
     Repository_Owner_Login := "kubernetes";
     Labels_Nodes := [];
     Milestone_ID := IDUnsupported; Milestone_Closed := false |}.

Definition env_unsupported : Collaborators :=
  collaborators session_with_token None (Some user_alice, None) ([pr_unsupported], None).

Definition request_plain : Request :=
  {| ParseForm := None; Form := ∅; URL_Query := ∅ |}.

(** [GET /pr-status?var=data]. *)
Definition request_var : Request :=
  {| ParseForm := None;
     Form := {[ "var" := ["data"] ]};
     URL_Query := {[ "var" := ["data"] ]} |}.

(** [GET /pr-status?query=is:issue+author:bob]. *)
Definition request_override : Request :=
  {| ParseForm := None;
     Form := {[ "query" := ["is:issue author:bob"] ]};
     URL_Query := {[ "query" := ["is:issue author:bob"] ]} |}.

(** ** Further stand-ins and notions used by the properties below *)

(** A service that answers every request with the same page. *)
Record EndlessClient := { endless_answer : searchQuery }.

#[export] Instance EndlessClient_githubClient : githubClient EndlessClient := {
  Query c vars := (c, inl (endless_answer c))
}.

Definition endless_service : EndlessClient := {| endless_answer := page1 |}.

(** The request that carries [query] and the cursor [c]. *)
Definition request (query : string) (c : option string) : gmap string VarValue :=
  <["searchCursor" := VStringPtr c]> (<["query" := VString query]> ∅).

(** The end cursors a script makes the paginator send: those of its leading
    pages that report a next page. *)
Fixpoint cursors_after (answers : list (searchQuery + error)) : list string :=
  match answers with
  | inl sq :: answers' =>
      if PageInfo_HasNextPage sq then PageInfo_EndCursor sq :: cursors_after answers'
      else []
  | _ => []
  end.

(** The identity cookie, whatever its value and lifetime. *)
Definition identity_cookie (c : Cookie) : Prop :=
  Name c = loginSession /\ Path c = "/" /\ Secure c = true.

(** The text [http.Error] writes for [serverError(action, err)]. *)
Definition server_error_text (action : string) (err : error) : string :=
  "500 Internal server error " +:+ action +:+ ": " +:+ Error err +:+ newline.

(** The session once the handler has stored the login in it. *)
Definition session_with_login (s : Session) (login : string) : Session :=
  {| Values := <[loginKey := SString login]> (Values s);
     Options_MaxAge := Options_MaxAge s |}.

(** The cookie by which the handler tells the client who is logged in. *)
Definition login_cookie (now : Z) (login : string) : Cookie :=
  {| Name := loginSession; Value := login; Path := "/";
     Expires := now + 30 * 24 * time_Hour; MaxAge := 0; Secure := true |}.

(** A user record without a login. *)
Definition user_without_login : User := {| User_Login := None |}.

Definition env_user_without_login : Collaborators :=
  collaborators session_with_token None (Some user_without_login, None) ([], None).

Definition env_save_fails : Collaborators :=
  collaborators session_with_token (Some store_failure) (Some user_alice, None) ([pr 1], None).

Definition env_query_fails : Collaborators :=
  collaborators session_with_token None (Some user_alice, None) ([pr 1], Some transport_error).

Definition env_store_fails : Collaborators :=
  {| CookieStore_Get := (session_without_token, Some store_failure);
     Session_Save := fun _ => None;
     GetUser := fun _ => (None, None);
     queryHandler := fun _ _ _ => ([], None);
     json_Marshal := encode;
     time_Now := 1700000000 * 1000000000 |}.

(** * Properties *)

(** ** Strings *)

Lemma append_cons (c : ascii) (s t : string) : String c s +:+ t = String c (s +:+ t).
Proof. reflexivity. Qed.

Lemma append_nil_l (t : string) : EmptyString +:+ t = t.
Proof. reflexivity. Qed.

Lemma append_nil_r (s : string) : s +:+ EmptyString = s.
Proof. induction s as [|c s IH]; [reflexivity | rewrite append_cons; f_equal; exact IH]. Qed.

Lemma append_assoc (a b c : string) : (a +:+ b) +:+ c = a +:+ (b +:+ c).
Proof.
  induction a as [|x a IH]; [reflexivity |].
  rewrite !append_cons. f_equal. exact IH.
Qed.

Lemma Split_not_nil (s : string) (sep : ascii) : strings.Split s sep <> [].
Proof.
  destruct s as [|c s]; simpl; [discriminate |].
  destruct (Ascii.eqb c sep); [discriminate |].
  destruct (strings.Split s sep); discriminate.
Qed.

(** Joining the pieces of a split gives the string back. *)
Lemma Join_Split (s : string) (sep : ascii) :
  strings.Join (strings.Split s sep) (String sep EmptyString) = s.
Proof.
  unfold strings.Join.
  induction s as [|c s IH]; simpl; [reflexivity |].
  destruct (Ascii.eqb_spec c sep) as [-> | Hne].
  - pose proof (Split_not_nil s sep) as Hnil.
    destruct (strings.Split s sep) as [|t ts] eqn:E; [contradiction |].
    simpl. simpl in IH. now rewrite IH.
  - pose proof (Split_not_nil s sep) as Hnil.
    destruct (strings.Split s sep) as [|t ts] eqn:E; [contradiction |].
    simpl in *. destruct ts as [|t' ts]; simpl in *; now rewrite <- IH.
Qed.

(** No piece of a split holds the separator. *)
Lemma Split_pieces (s : string) (sep : ascii) :
  Forall (fun tkn => has_byte sep tkn = false) (strings.Split s sep).
Proof.
  induction s as [|c s IH]; simpl.
  - repeat constructor.
  - destruct (Ascii.eqb c sep) eqn:Ec.
    + constructor; [reflexivity | exact IH].
    + destruct (strings.Split s sep) as [|t ts]; [repeat constructor; simpl; now rewrite Ec |].
      inversion IH; subst. constructor; [simpl; now rewrite Ec | assumption].
Qed.

(** ** Query builder *)

Lemma appendRepoTokens_map (rs tokens : list string) :
  appendRepoTokens tokens rs = tokens ++ map Sprintf_repo rs.
Proof.
  unfold appendRepoTokens. revert tokens.
  induction rs as [|r rs IH]; intros tokens; simpl.
  - now rewrite app_nil_r.
  - rewrite IH, <- app_assoc. reflexivity.
Qed.



(** ** Explicit-scope predicate *)

Lemma queryConstrainsRepos_loop_true (tkns : list string) :
  queryConstrainsRepos_loop tkns = true <-> exists tkn, In tkn tkns /\ scope_token tkn.
Proof.
  unfold scope_token. induction tkns as [|t tkns IH]; simpl.
  - split; [discriminate | intros (? & [] & _)].
  - destruct (strings.HasPrefix t "org:") eqn:Eo; simpl.
    { split; [intros _; exists t; auto | reflexivity]. }
    destruct (strings.HasPrefix t "repo:") eqn:Er.
    { split; [intros _; exists t; auto | reflexivity]. }
    rewrite IH. split.
    + intros (tkn & Hin & Hs). exists tkn; auto.
    + intros (tkn & [<- | Hin] & Hs); [destruct Hs; congruence |].
      exists tkn; auto.
Qed.


(** C2, counterexample. On a query whose [repo:] token follows a tab, the
    source finds no scope token although cutting at white space yields one. *)
Lemma queryConstrainsRepos_whitespace_counterexample :
  ~ (queryConstrainsRepos tab_separated_query = true
     <-> hasExplicitScope tab_separated_query).
Proof.
  intros [_ H].
  assert (Hf : queryConstrainsRepos tab_separated_query = false) by reflexivity.
  rewrite H in Hf; [discriminate |].
  exists "repo:kubernetes/test-infra". split.
  - vm_compute. auto.
  - right. reflexivity.
Qed.

(** C2, as the source has it. [queryConstrainsRepos] cuts the query at every
    space character and at nothing else: the pieces joined by single spaces
    give the query back and no piece holds a space.  It answers true exactly
    when some piece starts with [org:] or [repo:]; so it does for
    [repo:"a/b" is:pr] and does not for [is:pr author:x]. *)
Theorem queryConstrainsRepos_spec (q : string) :
  let tkns := strings.Split q " "%char in
  strings.Join tkns " " = q
  /\ Forall (fun tkn => has_byte " "%char tkn = false) tkns
  /\ (queryConstrainsRepos q = true <-> exists tkn, In tkn tkns /\ scope_token tkn)
  /\ queryConstrainsRepos ("repo:" +:+ dquote +:+ "a/b" +:+ dquote +:+ " is:pr") = true
  /\ queryConstrainsRepos "is:pr author:x" = false.
Proof.
  cbv zeta. split; [apply Join_Split |].
  split; [apply Split_pieces |].
  split; [apply queryConstrainsRepos_loop_true |].
  split; reflexivity.
Qed.

(** ** Go integers *)

Lemma int_wrap_add_l (a b : Z) : int_wrap (int_wrap a + b) = int_wrap (a + b).
Proof.
  unfold int_wrap. f_equal.
  replace ((a + 2 ^ 63) mod 2 ^ 64 - 2 ^ 63 + b + 2 ^ 63)
    with ((a + 2 ^ 63) mod 2 ^ 64 + b) by lia.
  rewrite Zplus_mod_idemp_l. f_equal. lia.
Qed.

Lemma int_wrap_add_r (a b : Z) : int_wrap (a + int_wrap b) = int_wrap (a + b).
Proof. rewrite Z.add_comm, int_wrap_add_l. f_equal. lia. Qed.

Lemma int_wrap_small (z : Z) : - 2 ^ 63 <= z < 2 ^ 63 -> int_wrap z = z.
Proof. intros Hz. unfold int_wrap. rewrite Z.mod_small; lia. Qed.

Lemma int_of_Int_typed (x : Z) : Int_range x -> int_of_Int x = x.
Proof. unfold Int_range, int_of_Int. intros Hx. apply int_wrap_small. lia. Qed.

Lemma total_cost_of_app (ps qs : list searchQuery) :
  total_cost_of (ps ++ qs) = total_cost_of ps + total_cost_of qs.
Proof.
  unfold total_cost_of. induction ps as [|p ps IH]; simpl; [reflexivity | lia].
Qed.

Lemma total_cost_of_bounds (ps : list searchQuery) :
  Forall searchQuery_typed ps ->
  - 2 ^ 31 * Z.of_nat (length ps) <= total_cost_of ps <= (2 ^ 31 - 1) * Z.of_nat (length ps).
Proof.
  unfold total_cost_of.
  induction 1 as [|p ps [Hc _] _ IH]; simpl length; simpl map; simpl fold_right.
  - lia.
  - unfold Int_range in Hc. lia.
Qed.

(** ** Paginator *)

Lemma appendNodes_map (nodes : list SearchNode) (prs : list PullRequest) :
  appendNodes prs nodes = prs ++ map Node_PullRequest nodes.
Proof.
  unfold appendNodes. revert prs.
  induction nodes as [|n nodes IH]; intros prs; simpl.
  - now rewrite app_nil_r.
  - rewrite IH, <- app_assoc. reflexivity.
Qed.

Lemma pull_requests_of_cons (sq : searchQuery) (pages : list searchQuery) :
  pull_requests_of (sq :: pages)
  = map Node_PullRequest (Search_Nodes sq) ++ pull_requests_of pages.
Proof. reflexivity. Qed.

(** The loop along an exchange: by induction on the exchange. *)
Lemma QueryPullRequests_loop_Exchange {C} `{githubClient C}
    (ghc ghc' : C) (vars : gmap string VarValue) (pages : list searchQuery)
    (r : searchQuery + error) :
  Exchange ghc vars pages r ghc' ->
  forall (fuel : nat) (prs : list PullRequest) (totalCost remaining : Z),
    (length pages < fuel)%nat ->
    QueryPullRequests_loop fuel ghc vars prs totalCost remaining
    = Some (ghc',
            match r with
            | inr err => ReturnErr err
            | inl sq =>
                Break (prs ++ pull_requests_of (pages ++ [sq]))
                      (int_wrap (totalCost + total_cost_of (pages ++ [sq])))
                      (int_of_Int (RateLimit_Remaining sq))
            end).
Proof.
  induction 1 as [ghc vars r ghc' HQ Hfin | ghc vars sq ghc1 pages r ghc' HQ Hnext _ IH];
    intros fuel prs totalCost remaining Hfuel.
  - destruct fuel as [|fuel]; [simpl in Hfuel; lia |].
    simpl. rewrite HQ. destruct r as [sq | err]; [| reflexivity].
    simpl in Hfin. rewrite Hfin. simpl.
    rewrite appendNodes_map, int_wrap_add_r.
    unfold pull_requests_of, total_cost_of. simpl.
    rewrite app_nil_r, Z.add_0_r. reflexivity.
  - destruct fuel as [|fuel]; [simpl in Hfuel; lia |].
    simpl. rewrite HQ, Hnext. simpl.
    rewrite IH by (simpl in Hfuel; lia).
    destruct r as [last | err]; [| reflexivity].
    rewrite appendNodes_map, <- app_assoc, int_wrap_add_l.
    change ((sq :: pages) ++ [last]) with (sq :: (pages ++ [last])).
    rewrite pull_requests_of_cons.
    change (total_cost_of (sq :: pages ++ [last]))
      with (RateLimit_Cost sq + total_cost_of (pages ++ [last])).
    unfold int_of_Int at 1.
    replace (totalCost + int_wrap (RateLimit_Cost sq) + total_cost_of (pages ++ [last]))
      with (totalCost + total_cost_of (pages ++ [last]) + int_wrap (RateLimit_Cost sq)) by lia.
    rewrite int_wrap_add_r.
    replace (totalCost + total_cost_of (pages ++ [last]) + RateLimit_Cost sq)
      with (totalCost + (RateLimit_Cost sq + total_cost_of (pages ++ [last]))) by lia.
    reflexivity.
Qed.

(** C3. Against a client that answers a run of pages, every page but the
    last with [hasNextPage] set and each request after the first carrying the
    end cursor of the page before, [QueryPullRequests] stops at the first
    page without [hasNextPage] (the client is left as that last call left
    it) and returns the pull requests of all pages in the order received,
    with no error.  The one log record it emits carries the sum of the page
    costs, in Go's [int] arithmetic (the exact sum up to [2^32] pages), and
    the remaining quota of the last page only. *)
Theorem QueryPullRequests_collects {C} `{githubClient C} (da : DashboardAgent)
    (ghc ghc' : C) (query : string) (pages : list searchQuery) (last : searchQuery)
    (fuel : nat) :
  Exchange ghc (initial_vars query) pages (inl last) ghc' ->
  Forall searchQuery_typed (pages ++ [last]) ->
  (length pages < fuel)%nat ->
  QueryPullRequests fuel da ghc query
  = Some (ghc',
          [Infof searchLogFormat
             [ArgString query;
              ArgInt (int_wrap (total_cost_of (pages ++ [last])));
              ArgInt (RateLimit_Remaining last)]],
          (pull_requests_of (pages ++ [last]), None))
  /\ (Z.of_nat (length (pages ++ [last])) <= 2 ^ 32 ->
      int_wrap (total_cost_of (pages ++ [last])) = total_cost_of (pages ++ [last])).
Proof.
  intros Hex Htyped Hfuel. split.
  - unfold QueryPullRequests.
    rewrite (QueryPullRequests_loop_Exchange ghc ghc' _ pages (inl last) Hex) by exact Hfuel.
    rewrite (int_of_Int_typed (RateLimit_Remaining last)).
    + reflexivity.
    + apply Forall_app in Htyped as [_ Hlast].
      inversion Hlast as [|? ? [_ Hrem] _]; subst. exact Hrem.
  - intros Hlen. apply int_wrap_small.
    pose proof (total_cost_of_bounds _ Htyped) as Hb. nia.
Qed.

Lemma QueryPullRequests_collects_witness :
  QueryPullRequests 3 agent stub_three_pages "is:pr"
  = Some (stub_three_pages_end,
          [Infof searchLogFormat
             [ArgString "is:pr";
              ArgInt (int_wrap (total_cost_of ([page1; page2] ++ [page3])));
              ArgInt (RateLimit_Remaining page3)]],
          (pull_requests_of ([page1; page2] ++ [page3]), None))
  /\ (Z.of_nat (length ([page1; page2] ++ [page3])) <= 2 ^ 32 ->
      int_wrap (total_cost_of ([page1; page2] ++ [page3]))
      = total_cost_of ([page1; page2] ++ [page3])).
Proof.
  apply (QueryPullRequests_collects agent stub_three_pages stub_three_pages_end
           "is:pr" [page1; page2] page3 3).
  - apply Exchange_page with (ghc' := {| script := [inl page2; inl page3];
                                         received := [request0] |});
      [reflexivity | reflexivity |].
    apply Exchange_page with (ghc' := {| script := [inl page3];
                                         received := [request0; request1] |});
      [reflexivity | reflexivity |].
    apply Exchange_final; reflexivity.
  - repeat constructor; vm_compute; congruence.
  - simpl. lia.
Defined.

(** The three-page stub of the specification: one hundred pull requests, in
    the order served, a cost of three points and the quota of the last page;
    the requests carried no cursor, then [c40], then [c80]. *)
Example QueryPullRequests_three_pages :
  QueryPullRequests 5 agent stub_three_pages "is:pr"
  = Some (stub_three_pages_end,
          [Infof searchLogFormat [ArgString "is:pr"; ArgInt 3; ArgInt 4997]],
          (map (fun i => pr (Z.of_nat i)) (seq 1 100), None))
  /\ map (fun vars => vars !! "searchCursor") (received stub_three_pages_end)
     = [Some (VStringPtr None); Some (VStringPtr (Some "c40"));
        Some (VStringPtr (Some "c80"))].
Proof. split; vm_compute; reflexivity. Qed.

(** C4. Against a client whose answer to some request is an error, the pages
    before it having been served with [hasNextPage] set, [QueryPullRequests]
    returns that error and no pull request at all, emits no log record and
    sends no further request: the client is left as the failing call left
    it. *)
Theorem QueryPullRequests_aborts {C} `{githubClient C} (da : DashboardAgent)
    (ghc ghc' : C) (query : string) (pages : list searchQuery) (err : error)
    (fuel : nat) :
  Exchange ghc (initial_vars query) pages (inr err) ghc' ->
  (length pages < fuel)%nat ->
  QueryPullRequests fuel da ghc query = Some (ghc', [], ([], Some err)).
Proof.
  intros Hex Hfuel. unfold QueryPullRequests.
  rewrite (QueryPullRequests_loop_Exchange ghc ghc' _ pages (inr err) Hex) by exact Hfuel.
  reflexivity.
Qed.

Lemma QueryPullRequests_aborts_witness :
  QueryPullRequests 2 agent stub_error_on_page2 "is:pr"
  = Some (stub_error_on_page2_end, [], ([], Some transport_error)).
Proof.
  apply (QueryPullRequests_aborts agent stub_error_on_page2 stub_error_on_page2_end
           "is:pr" [page1] transport_error 2).
  - apply Exchange_page with (ghc' := {| script := [inr transport_error; inl page3];
                                         received := [request0] |});
      [reflexivity | reflexivity |].
    apply Exchange_final; [reflexivity | exact I].
  - simpl. lia.
Defined.

(** ** Request handler *)

Ltac run_monad :=
  cbv beta iota zeta delta
    [bind ret return_ panic modify logged called http_SetCookie http_Error
     w_Write session_Save deref serverError set_w set_session WriteHeader Write
     initial_state];
  cbn [fst snd w session saves log remote_calls SetCookies status body app].

(** The text the handler writes for a payload: the payload itself, or the
    payload wrapped as the value of a script variable. *)
Lemma writeResponse_run (env : Collaborators) (r : Request) (data : UserData)
    (st : HandlerState) :
  exists st',
    writeResponse env r data st = (st', Done tt)
    /\ session st' = session st
    /\ saves st' = saves st
    /\ remote_calls st' = remote_calls st
    /\ SetCookies (w st') = SetCookies (w st)
    /\ status (w st') = Some (match status (w st) with None => 200 | Some c => c end)
    /\ log st' = log st ++ match json_Marshal env data with
                           | inl _ => []
                           | inr err => [WithError_Error err "Error with marshalling user data."]
                           end
    /\ body (w st')
       = body (w st)
         +:+ (let payload := match json_Marshal env data with
                             | inl bytes => bytes
                             | inr _ => EmptyString
                             end in
              let v := Values_Get (URL_Query r) "var" in
              if nonempty v then "var " +:+ v +:+ " = " +:+ payload +:+ ";"
              else payload).
Proof.
  unfold writeResponse.
  destruct (json_Marshal env data) as [bytes | err];
    destruct (nonempty (Values_Get (URL_Query r) "var"));
    run_monad; eexists; (split; [reflexivity |]); cbn [w session saves log remote_calls SetCookies status body];
    rewrite ?app_nil_r, ?append_assoc;
    destruct (status (w st)); repeat split; reflexivity.
Qed.

(** The handler once the store has handed out a session holding a token. *)
Lemma HandlePrStatus_with_token (da : DashboardAgent) (env : Collaborators)
    (r : Request) (s0 : Session) (tok : Token) :
  CookieStore_Get env = (s0, None) ->
  Values s0 !! tokenKey = Some (SToken tok) ->
  HandlePrStatus da env r
  = (let* user := validateToken env (Some tok) in
     let* data := match user with
                  | Some user =>
                      serveUser da env r (Some tok) user {| Login := false; PullRequests := [] |}
                  | None => ret {| Login := false; PullRequests := [] |}
                  end in
     let* _ := writeResponse env r data in
     ret data) (initial_state s0).
Proof. intros Hget Htok. unfold HandlePrStatus. rewrite Hget, Htok. reflexivity. Qed.

(** C5. When the session holds a valid token and [GetUser] returns no user
    and an error the handler takes for a rejection (its text holds [401]),
    the handler sets the max-age of the session to [-1] and saves it.  If saving
    fails, it answers with status 500 and sets no cookie.  If saving
    succeeds, it sets the cookie [github_login] with an expiry one day before
    now and max-age [-1], and runs to its end with the logged-out payload
    ([Login] false, no pull requests) and status 200. *)
Theorem HandlePrStatus_rejected (da : DashboardAgent) (env : Collaborators)
    (r : Request) (s0 : Session) (tok : Token) (err : error) :
  CookieStore_Get env = (s0, None) ->
  Values s0 !! tokenKey = Some (SToken tok) ->
  Token_Valid tok = true ->
  GetUser env (AccessToken tok) = (None, Some err) ->
  rejected err = true ->
  let expired := {| Values := Values s0; Options_MaxAge := -1 |} in
  let st := fst (HandlePrStatus da env r) in
  let res := snd (HandlePrStatus da env r) in
  session st = expired
  /\ saves st = [(expired, Session_Save env expired)]
  /\ match Session_Save env expired with
     | Some serr =>
         res = Returned
         /\ SetCookies (w st) = []
         /\ status (w st) = Some 500
         /\ body (w st)
            = "500 Internal server error Error with saving invalidated session: "
              +:+ Error serr +:+ newline
     | None =>
         res = Done {| Login := false; PullRequests := [] |}
         /\ SetCookies (w st)
            = [{| Name := loginSession; Value := EmptyString; Path := "/";
                  Expires := time_Now env - 24 * time_Hour;
                  MaxAge := -1; Secure := true |}]
         /\ time_Now env - 24 * time_Hour < time_Now env
         /\ status (w st) = Some 200
     end.
Proof.
  intros Hget Htok Hvalid Huser Hrej expired st res. subst st res.
  rewrite (HandlePrStatus_with_token da env r s0 tok Hget Htok).
  unfold validateToken. rewrite Hvalid, Huser, Hrej.
  run_monad. fold expired.
  destruct (Session_Save env expired) as [serr|] eqn:Hsave.
  - run_monad. repeat split; reflexivity.
  - run_monad.
    match goal with |- context [writeResponse env r ?d ?s] =>
      destruct (writeResponse_run env r d s)
        as (st' & -> & Hses & Hsav & _ & Hck & Hst & _ & _)
    end.
    cbn [fst snd]. rewrite Hses, Hsav, Hck, Hst. cbn.
    replace (time_Now env - 24 * time_Hour) with (time_Now env + - time_Hour * 24) by lia.
    repeat split; try reflexivity.
    unfold time_Hour. lia.
Qed.

Lemma HandlePrStatus_rejected_witness :
  snd (HandlePrStatus agent env_rejected request_plain)
  = Done {| Login := false; PullRequests := [] |}
  /\ status (w (fst (HandlePrStatus agent env_rejected request_plain))) = Some 200
  /\ map MaxAge (SetCookies (w (fst (HandlePrStatus agent env_rejected request_plain))))
     = [-1]
  /\ map (fun s => Options_MaxAge (fst s))
         (saves (fst (HandlePrStatus agent env_rejected request_plain)))
     = [-1].
Proof.
  pose proof (HandlePrStatus_rejected agent env_rejected request_plain
                session_with_token token_alice bad_credentials
                eq_refl eq_refl eq_refl eq_refl eq_refl) as H.
  cbv zeta in H. destruct H as (_ & Hsaves & Hres & Hcookies & _ & Hstatus).
  rewrite Hres, Hstatus, Hcookies, Hsaves. repeat split; reflexivity.
Defined.

(** [serveUser] keeps the record of the saves made before it. *)
Lemma serveUser_saves (da : DashboardAgent) (env : Collaborators) (r : Request)
    (tok : option Token) (user : User) (data : UserData) (st : HandlerState) :
  exists rest, saves (fst (serveUser da env r tok user data st)) = saves st ++ rest.
Proof.
  unfold serveUser.
  destruct (User_Login user) as [login|]; run_monad; [| exists []; now rewrite app_nil_r].
  match goal with |- context [Session_Save env ?s] => destruct (Session_Save env s) end;
    run_monad; [eexists; reflexivity |].
  destruct tok as [tok|]; run_monad; [| eexists; reflexivity].
  match goal with |- context [queryHandler env ?a ?b ?c] =>
    destruct (queryHandler env a b c) as [prs [qerr|]] end;
    run_monad; eexists; reflexivity.
Qed.

(** C6. The handler means to invalidate the session only when the token is
    not consumable, and sends every other failure of [GetUser] to a server
    error; but it tells the two apart by looking for [401] in the text of the
    error.  At a connection reset whose text names the local port 40112,
    which is no authorization failure, the test answers true: the handler
    does not abort, saves the session with max-age [-1], expires the
    identity cookie and answers the logged-out payload with status 200. *)
Lemma HandlePrStatus_connection_reset_invalidates :
  GetUser env_connection_reset (AccessToken token_alice) = (None, Some connection_reset)
  /\ err_cause connection_reset <> HTTPStatus 401
  /\ rejected connection_reset = true
  /\ ~ (snd (HandlePrStatus agent env_connection_reset request_plain) = Returned
        /\ saves (fst (HandlePrStatus agent env_connection_reset request_plain)) = []
        /\ SetCookies (w (fst (HandlePrStatus agent env_connection_reset request_plain))) = [])
  /\ snd (HandlePrStatus agent env_connection_reset request_plain)
     = Done {| Login := false; PullRequests := [] |}
  /\ status (w (fst (HandlePrStatus agent env_connection_reset request_plain))) = Some 200
  /\ map (fun s => Options_MaxAge (fst s))
         (saves (fst (HandlePrStatus agent env_connection_reset request_plain)))
     = [-1]
  /\ map MaxAge (SetCookies (w (fst (HandlePrStatus agent env_connection_reset request_plain))))
     = [-1].
Proof.
  split; [reflexivity |]. split; [discriminate |]. split; [reflexivity |]. split.
  - intros (Hres & _). vm_compute in Hres. discriminate.
  - repeat split; vm_compute; reflexivity.
Qed.

(** The two branches the handler has for a failed [GetUser], by the answer
    of its test on the text of the error.  When the test fails, the handler
    aborts with status 500, having saved no session, set no cookie and left
    the session as the store handed it out.  When the test succeeds, the
    first thing saved is the session with max-age [-1]. *)
Lemma HandlePrStatus_GetUser_failure (da : DashboardAgent) (env : Collaborators)
    (r : Request) (s0 : Session) (tok : Token) (user : option User) (err : error) :
  CookieStore_Get env = (s0, None) ->
  Values s0 !! tokenKey = Some (SToken tok) ->
  Token_Valid tok = true ->
  GetUser env (AccessToken tok) = (user, Some err) ->
  (rejected err = false ->
   HandlePrStatus da env r
   = ({| w := {| SetCookies := [];
                 status := Some 500;
                 body := "500 Internal server error Error with getting user login: "
                         +:+ Error err +:+ newline |};
         session := s0;
         saves := [];
         log := [WithError_Errorf err "Error %s."
                   [ArgString "Error with getting user login"]];
         remote_calls := [CallGetUser (AccessToken tok)] |},
       Returned))
  /\ (rejected err = true ->
      exists serr rest,
        saves (fst (HandlePrStatus da env r))
        = ({| Values := Values s0; Options_MaxAge := -1 |}, serr) :: rest).
Proof.
  intros Hget Htok Hvalid Huser. split; intros Hrej.
  - rewrite (HandlePrStatus_with_token da env r s0 tok Hget Htok).
    unfold validateToken. rewrite Hvalid, Huser, Hrej.
    run_monad. rewrite append_assoc. reflexivity.
  - rewrite (HandlePrStatus_with_token da env r s0 tok Hget Htok).
    unfold validateToken. rewrite Hvalid, Huser, Hrej.
    run_monad.
    set (expired := {| Values := Values s0; Options_MaxAge := -1 |}).
    exists (Session_Save env expired).
    destruct (Session_Save env expired) as [serr|].
    + run_monad. exists []. reflexivity.
    + run_monad.
      match goal with |- context [match user with Some _ => _ | None => _ end ?s] =>
        set (st1 := s) end.
      destruct user as [u|].
      * destruct (serveUser_saves da env r (Some tok) u {| Login := false; PullRequests := [] |} st1)
          as (rest & Hrest).
        destruct (serveUser da env r (Some tok) u {| Login := false; PullRequests := [] |} st1)
          as [st2 [d| |]]; cbn [fst] in Hrest; try (exists rest; exact Hrest).
        destruct (writeResponse_run env r d st2) as (st3 & -> & _ & Hsav & _).
        cbn [fst]. rewrite Hsav. exists rest. exact Hrest.
      * destruct (writeResponse_run env r {| Login := false; PullRequests := [] |} st1)
          as (st3 & -> & _ & Hsav & _).
        cbn [fst]. rewrite Hsav. exists []. reflexivity.
Qed.

(** A failure whose text does not hold [401]: the service is unavailable. *)
Example HandlePrStatus_service_unavailable :
  snd (HandlePrStatus agent env_unavailable request_plain) = Returned
  /\ saves (fst (HandlePrStatus agent env_unavailable request_plain)) = []
  /\ SetCookies (w (fst (HandlePrStatus agent env_unavailable request_plain))) = []
  /\ status (w (fst (HandlePrStatus agent env_unavailable request_plain))) = Some 500
  /\ session (fst (HandlePrStatus agent env_unavailable request_plain)) = session_with_token.
Proof.
  destruct (HandlePrStatus_GetUser_failure agent env_unavailable request_plain
              session_with_token token_alice None service_unavailable
              eq_refl eq_refl eq_refl eq_refl) as (H & _).
  rewrite (H eq_refl). repeat split; reflexivity.
Qed.


(** [validateToken] writes neither a status nor a body when the handler goes
    on after it. *)
Lemma validateToken_Done (env : Collaborators) (tok : option Token)
    (st st' : HandlerState) (user : option User) :
  validateToken env tok st = (st', Done user) ->
  status (w st') = status (w st) /\ body (w st') = body (w st).
Proof.
  unfold validateToken.
  destruct tok as [tok|]; [| run_monad; intros [= <- _]; auto].
  destruct (Token_Valid tok); [| run_monad; intros [= <- _]; auto].
  run_monad. destruct (GetUser env (AccessToken tok)) as [u [err|]];
    [| run_monad; intros [= <- _]; auto].
  destruct (rejected err); run_monad; [| discriminate].
  match goal with |- context [Session_Save env ?s] => destruct (Session_Save env s) end;
    run_monad; [discriminate | intros [= <- _]; auto].
Qed.

(** So does [serveUser], and the payload it hands on has [Login] set. *)
Lemma serveUser_Done (da : DashboardAgent) (env : Collaborators) (r : Request)
    (tok : option Token) (user : User) (data : UserData)
    (st st' : HandlerState) (data' : UserData) :
  serveUser da env r tok user data st = (st', Done data') ->
  status (w st') = status (w st) /\ body (w st') = body (w st) /\ Login data' = true.
Proof.
  unfold serveUser.
  destruct (User_Login user) as [login|]; run_monad; [| discriminate].
  match goal with |- context [Session_Save env ?s] => destruct (Session_Save env s) end;
    run_monad; [discriminate |].
  destruct tok as [tok|]; run_monad; [| discriminate].
  match goal with |- context [queryHandler env ?a ?b ?c] =>
    destruct (queryHandler env a b c) as [prs [qerr|]] end;
    run_monad; [discriminate |].
  intros [= <- <-]. auto.
Qed.

(** A handler that runs to its end has written nothing before it serializes
    its payload, and the payload is either the logged-out one or one with
    [Login] set. *)
Lemma HandlePrStatus_Done (da : DashboardAgent) (env : Collaborators) (r : Request)
    (st : HandlerState) (data : UserData) :
  HandlePrStatus da env r = (st, Done data) ->
  exists st1,
    writeResponse env r data st1 = (st, Done tt)
    /\ status (w st1) = None
    /\ body (w st1) = EmptyString
    /\ (data = {| Login := false; PullRequests := [] |} \/ Login data = true).
Proof.
  unfold HandlePrStatus.
  destruct (CookieStore_Get env) as [s [gerr|]]; [run_monad; discriminate |].
  set (token := match Values s !! tokenKey with Some (SToken t) => Some t | _ => None end).
  unfold bind at 1.
  destruct (validateToken env token (initial_state s)) as [st0 [user| |]] eqn:Hv;
    try discriminate.
  apply validateToken_Done in Hv as [Hs0 Hb0]. cbn in Hs0, Hb0.
  unfold bind at 1.
  destruct user as [user|].
  - destruct (serveUser da env r token user {| Login := false; PullRequests := [] |} st0)
      as [st1 [d| |]] eqn:Hu; try discriminate.
    apply serveUser_Done in Hu as (Hs1 & Hb1 & Hlogin).
    unfold bind, ret.
    destruct (writeResponse_run env r d st1) as (st2 & Hw & _).
    rewrite Hw. intros [= <- <-].
    exists st1. repeat split; [exact Hw | congruence | congruence | now right].
  - unfold ret at 1. unfold bind, ret.
    destruct (writeResponse_run env r {| Login := false; PullRequests := [] |} st0)
      as (st2 & Hw & _).
    rewrite Hw. intros [= <- <-].
    exists st0. repeat split; [exact Hw | congruence | congruence | now left].
Qed.

(** C7. Whenever the handler runs to its end, the [UserData] it serializes
    holds no pull request unless its [Login] flag is set. *)
Theorem UserData_invariant (da : DashboardAgent) (env : Collaborators) (r : Request)
    (st : HandlerState) (data : UserData) :
  HandlePrStatus da env r = (st, Done data) ->
  Login data = false ->
  PullRequests data = [].
Proof.
  intros H Hlogin.
  apply HandlePrStatus_Done in H as (st1 & _ & _ & _ & [-> | Htrue]).
  - reflexivity.
  - congruence.
Qed.

Lemma UserData_invariant_witness :
  snd (HandlePrStatus agent env_rejected request_var)
  = Done {| Login := false; PullRequests := [] |}
  /\ PullRequests {| Login := false; PullRequests := [] |} = [].
Proof.
  split; [vm_compute; reflexivity |].
  apply (UserData_invariant agent env_rejected request_var
           (fst (HandlePrStatus agent env_rejected request_var))
           {| Login := false; PullRequests := [] |}).
  - vm_compute. reflexivity.
  - reflexivity.
Defined.

(** C8. When the handler runs to its end and the payload is serialized to
    [json], the body of the response is [var <name> = ] followed by [json]
    and [;] if the first value [<name>] of the query parameter [var] is not
    empty, and is [json] alone if that parameter is absent or empty; the
    status is 200. *)
Theorem HandlePrStatus_body (da : DashboardAgent) (env : Collaborators) (r : Request)
    (st : HandlerState) (data : UserData) (json : string) :
  HandlePrStatus da env r = (st, Done data) ->
  json_Marshal env data = inl json ->
  status (w st) = Some 200
  /\ body (w st)
     = match Values_Get (URL_Query r) "var" with
       | EmptyString => json
       | name => "var " +:+ name +:+ " = " +:+ json +:+ ";"
       end.
Proof.
  intros H Hjson.
  apply HandlePrStatus_Done in H as (st1 & Hw & Hs & Hb & _).
  destruct (writeResponse_run env r data st1)
    as (st' & Hw' & _ & _ & _ & _ & Hstatus & _ & Hbody).
  rewrite Hw in Hw'. injection Hw' as <-.
  rewrite Hstatus, Hbody, Hs, Hb, Hjson. split; [reflexivity |].
  cbv zeta. destruct (Values_Get (URL_Query r) "var"); reflexivity.
Qed.

Lemma HandlePrStatus_body_witness :
  body (w (fst (HandlePrStatus agent env_logged_in request_var)))
  = "var data = " +:+ "{" +:+ dquote +:+ "Login" +:+ dquote +:+ ":true,"
    +:+ dquote +:+ "PullRequests" +:+ dquote +:+ ":["
    +:+ dquote +:+ "Fix flaky test" +:+ dquote +:+ ","
    +:+ dquote +:+ "Fix flaky test" +:+ dquote +:+ "]}" +:+ ";".
Proof.
  destruct (HandlePrStatus_body agent env_logged_in request_var
              (fst (HandlePrStatus agent env_logged_in request_var))
              {| Login := true; PullRequests := [pr 1; pr 2] |}
              ("{" +:+ dquote +:+ "Login" +:+ dquote +:+ ":true,"
               +:+ dquote +:+ "PullRequests" +:+ dquote +:+ ":["
               +:+ dquote +:+ "Fix flaky test" +:+ dquote +:+ ","
               +:+ dquote +:+ "Fix flaky test" +:+ dquote +:+ "]}"))
    as [_ Hbody].
  - vm_compute. reflexivity.
  - vm_compute. reflexivity.
  - rewrite Hbody. vm_compute. reflexivity.
Defined.

(** C9, counterexample. With [var=data] and a payload the encoder refuses,
    the handler still writes the wrapper: the body is [var data = ;]. *)
Lemma HandlePrStatus_marshal_failure_counterexample :
  snd (HandlePrStatus agent env_unsupported request_var)
  = Done {| Login := true; PullRequests := [pr_unsupported] |}
  /\ json_Marshal env_unsupported {| Login := true; PullRequests := [pr_unsupported] |}
     = inr unsupported_type
  /\ body (w (fst (HandlePrStatus agent env_unsupported request_var))) = "var data = ;"
  /\ body (w (fst (HandlePrStatus agent env_unsupported request_var))) <> EmptyString.
Proof. repeat split; try (vm_compute; reflexivity). vm_compute. discriminate. Qed.

(** C9, as the source has it. When the handler runs to its end and the
    encoder fails, the handler logs the error and reports no server error
    (the status is 200).  It still passes the empty result of the encoder
    through its write calls: the body is empty if the query parameter [var]
    is absent or empty, and is [var <name> = ;] if its first value [<name>]
    is not empty. *)
Theorem HandlePrStatus_marshal_failure (da : DashboardAgent) (env : Collaborators)
    (r : Request) (st : HandlerState) (data : UserData) (err : error) :
  HandlePrStatus da env r = (st, Done data) ->
  json_Marshal env data = inr err ->
  status (w st) = Some 200
  /\ (exists entries,
        log st = entries ++ [WithError_Error err "Error with marshalling user data."])
  /\ body (w st)
     = match Values_Get (URL_Query r) "var" with
       | EmptyString => EmptyString
       | name => "var " +:+ name +:+ " = " +:+ ";"
       end.
Proof.
  intros H Hjson.
  apply HandlePrStatus_Done in H as (st1 & Hw & Hs & Hb & _).
  destruct (writeResponse_run env r data st1)
    as (st' & Hw' & _ & _ & _ & _ & Hstatus & Hlog & Hbody).
  rewrite Hw in Hw'. injection Hw' as <-.
  rewrite Hstatus, Hbody, Hlog, Hs, Hb, Hjson.
  split; [reflexivity |]. split; [eexists; reflexivity |].
  cbv zeta. destruct (Values_Get (URL_Query r) "var"); reflexivity.
Qed.

Lemma HandlePrStatus_marshal_failure_witness :
  status (w (fst (HandlePrStatus agent env_unsupported request_plain))) = Some 200
  /\ body (w (fst (HandlePrStatus agent env_unsupported request_plain))) = EmptyString.
Proof.
  destruct (HandlePrStatus_marshal_failure agent env_unsupported request_plain
              (fst (HandlePrStatus agent env_unsupported request_plain))
              {| Login := true; PullRequests := [pr_unsupported] |}
              unsupported_type)
    as (Hstatus & _ & Hbody).
  - vm_compute. reflexivity.
  - vm_compute. reflexivity.
  - split; [exact Hstatus | rewrite Hbody; reflexivity].
Defined.

(** *** The query handed to the query handler *)

(** A parameter that is absent, or present without a value, reads as the
    empty string. *)
Lemma Values_Get_absent (v : gmap string (list string)) (key : string) :
  v !! key = None \/ v !! key = Some [] -> Values_Get v key = EmptyString.
Proof. unfold Values_Get. now intros [-> | ->]. Qed.

Lemma fold_left_scope_suffix (rs : list string) (query : string) :
  fold_left (fun query v => query +:+ Sprintf_space_repo v) rs query
  = query +:+ scope_suffix rs.
Proof.
  revert query. induction rs as [|v rs IH]; intros query; simpl.
  - now rewrite append_nil_r.
  - rewrite IH, append_assoc. reflexivity.
Qed.

(** A string that starts with [repo:] is cut into pieces of which the first
    starts with [repo:]. *)
Lemma Split_prefix_repo (b : string) :
  strings.HasPrefix b "repo:" = true ->
  exists t ts, strings.Split b " "%char = t :: ts /\ strings.HasPrefix t "repo:" = true.
Proof.
  unfold strings.HasPrefix. intros H.
  do 5 (destruct b as [|? b]; [discriminate |];
        simpl in H;
        match type of H with
        | (if ?d then _ else _) = true => destruct d as [<- |]; [| discriminate]
        end).
  pose proof (Split_not_nil b " "%char) as Hnil.
  cbn [strings.Split Ascii.eqb Bool.eqb].
  destruct (strings.Split b " "%char) as [|t ts]; [contradiction |].
  eexists; eexists; split; [reflexivity |].
  simpl. repeat (destruct (ascii_dec _ _); [| congruence]). now destruct t.
Qed.





(** The same request without the parameter, and with a form that fails to
    parse: the constructed query is handed on. *)
Example HandlePrStatus_query_default :
  remote_calls (fst (HandlePrStatus agent env_logged_in request_plain))
  = [CallGetUser "gho_alice";
     CallQueryPullRequests "gho_alice" githubEndpoint (ConstructSearchQuery agent "alice")]
  /\ remote_calls (fst (HandlePrStatus agent env_logged_in
                          {| ParseForm := Some store_failure;
                             Form := Form request_override;
                             URL_Query := URL_Query request_override |}))
     = [CallGetUser "gho_alice";
        CallQueryPullRequests "gho_alice" githubEndpoint (ConstructSearchQuery agent "alice")].
Proof. split; vm_compute; reflexivity. Qed.

(** * Further properties *)

(** ** Paginator: every finished run, runs that never finish, requests sent *)

(** A loop that is left has made an exchange with the client. *)
Lemma QueryPullRequests_loop_returns {C} `{githubClient C} (fuel : nat) :
  forall (ghc ghc' : C) (vars : gmap string VarValue) (prs : list PullRequest)
         (totalCost remaining : Z) (ex : loop_exit),
    QueryPullRequests_loop fuel ghc vars prs totalCost remaining = Some (ghc', ex) ->
    exists pages r,
      Exchange ghc vars pages r ghc' /\ (length pages < fuel)%nat.
Proof.
  induction fuel as [|fuel IH]; intros ghc ghc' vars prs totalCost remaining ex Hloop.
  - discriminate.
  - simpl in Hloop.
    destruct (Query ghc vars) as [ghc1 [sq | err]] eqn:HQ.
    + destruct (PageInfo_HasNextPage sq) eqn:Hnext; simpl in Hloop.
      * apply IH in Hloop as (pages & r & Hex & Hlen).
        exists (sq :: pages), r. split.
        -- eapply Exchange_page; eauto.
        -- simpl. lia.
      * injection Hloop as <- _.
        exists [], (inl sq). split; [apply Exchange_final; auto | simpl; lia].
    + injection Hloop as <- _.
      exists [], (inr err). split; [apply Exchange_final; simpl; auto | simpl; lia].
Qed.

(** X1. Whenever [QueryPullRequests] returns, it has made an exchange with
    the client: a run of pages with [hasNextPage] set, each request carrying
    the end cursor of the page before, closed by an error or by a page
    without [hasNextPage].  In the first case it returns the error, no pull
    request and no log record; in the second it returns exactly the pull
    requests of all those pages, in order, and one log record. *)
Theorem QueryPullRequests_returned {C} `{githubClient C} (fuel : nat)
    (da : DashboardAgent) (ghc ghc' : C) (query : string) (records : list LogEntry)
    (prs : list PullRequest) (err : option error) :
  QueryPullRequests fuel da ghc query = Some (ghc', records, (prs, err)) ->
  exists pages r,
    Exchange ghc (initial_vars query) pages r ghc'
    /\ (length pages < fuel)%nat
    /\ match r with
       | inr e => err = Some e /\ prs = [] /\ records = []
       | inl last =>
           err = None
           /\ prs = pull_requests_of (pages ++ [last])
           /\ records
              = [Infof searchLogFormat
                   [ArgString query;
                    ArgInt (int_wrap (total_cost_of (pages ++ [last])));
                    ArgInt (int_of_Int (RateLimit_Remaining last))]]
       end.
Proof.
  unfold QueryPullRequests. fold (initial_vars query). intros Hrun.
  destruct (QueryPullRequests_loop fuel ghc (initial_vars query) [] 0 0)
    as [[ghc1 ex]|] eqn:Hloop; [| discriminate].
  pose proof Hloop as Hloop'.
  apply QueryPullRequests_loop_returns in Hloop' as (pages & r & Hex & Hlen).
  rewrite (QueryPullRequests_loop_Exchange ghc ghc1 _ pages r Hex fuel [] 0 0 Hlen) in Hloop.
  injection Hloop as <-.
  exists pages, r. destruct r as [last | e].
  - injection Hrun as <- <- <- <-. repeat split; auto.
  - injection Hrun as <- <- <- <-. repeat split; auto.
Qed.

Lemma QueryPullRequests_returned_witness :
  exists pages last,
    Exchange stub_three_pages (initial_vars "is:pr") pages (inl last) stub_three_pages_end
    /\ map (fun i => pr (Z.of_nat i)) (seq 1 100) = pull_requests_of (pages ++ [last]).
Proof.
  destruct (QueryPullRequests_returned 5 agent stub_three_pages stub_three_pages_end
              "is:pr"
              [Infof searchLogFormat [ArgString "is:pr"; ArgInt 3; ArgInt 4997]]
              (map (fun i => pr (Z.of_nat i)) (seq 1 100)) None)
    as (pages & r & Hex & _ & Hr).
  - vm_compute. reflexivity.
  - destruct r as [last | e].
    + exists pages, last. split; [exact Hex | apply Hr].
    + destruct Hr as [Hr _]. discriminate Hr.
Defined.

(** X2. Against a service that answers every request with a page that
    reports a next page, [QueryPullRequests] never returns: no bound on the
    number of requests is enough.  The loop has no guard of its own. *)
Theorem QueryPullRequests_never_returns {C} `{githubClient C} (P : C -> Prop)
    (da : DashboardAgent) (ghc : C) (query : string) :
  P ghc ->
  (forall c vars, P c ->
     exists c' sq, Query c vars = (c', inl sq)
                   /\ PageInfo_HasNextPage sq = true /\ P c') ->
  forall fuel, QueryPullRequests fuel da ghc query = None.
Proof.
  intros HP Hstep fuel. unfold QueryPullRequests.
  assert (Hloop : forall fuel c vars prs totalCost remaining,
             P c -> QueryPullRequests_loop fuel c vars prs totalCost remaining = None).
  { clear fuel ghc HP. induction fuel as [|fuel IH]; intros c vars prs tc rem Hc.
    - reflexivity.
    - simpl. destruct (Hstep c vars Hc) as (c' & sq & -> & -> & Hc').
      simpl. now apply IH. }
  now rewrite Hloop.
Qed.

Lemma QueryPullRequests_never_returns_witness :
  QueryPullRequests 1000 agent endless_service "is:pr" = None.
Proof.
  apply (QueryPullRequests_never_returns
           (fun c => PageInfo_HasNextPage (endless_answer c) = true)
           agent endless_service "is:pr").
  - reflexivity.
  - intros c vars Hc. exists c, (endless_answer c). repeat split; assumption.
Defined.

(** The loop against a scripted service: it is always left, and the service
    has received the current request and then one request per end cursor. *)
Lemma QueryPullRequests_loop_stub (answers : list (searchQuery + error)) :
  forall (recv : list (gmap string VarValue)) (vars : gmap string VarValue)
         (prs : list PullRequest) (totalCost remaining : Z) (fuel : nat),
    (length answers < fuel)%nat ->
    exists stub' ex,
      QueryPullRequests_loop fuel {| script := answers; received := recv |}
        vars prs totalCost remaining = Some (stub', ex)
      /\ received stub'
         = recv ++ vars :: map (fun c => <["searchCursor" := VStringPtr (Some c)]> vars)
                               (cursors_after answers).
Proof.
  induction answers as [|[sq | err] answers IH];
    intros recv vars prs totalCost remaining fuel Hfuel;
    (destruct fuel as [|fuel]; [simpl in Hfuel; lia |]).
  - simpl. eexists; eexists; split; reflexivity.
  - cbn [QueryPullRequests_loop Query StubClient_githubClient script received cursors_after].
    destruct (PageInfo_HasNextPage sq); cbn [negb].
    + destruct (IH (recv ++ [vars])
                  (<["searchCursor" := VStringPtr (Some (PageInfo_EndCursor sq))]> vars)
                  (appendNodes prs (Search_Nodes sq))
                  (int_wrap (totalCost + int_of_Int (RateLimit_Cost sq)))
                  (int_of_Int (RateLimit_Remaining sq)) fuel)
        as (stub' & ex & Hloop & Hrecv); [simpl in Hfuel; lia |].
      exists stub', ex. split; [exact Hloop |].
      rewrite Hrecv, <- app_assoc. cbn [app map]. do 3 f_equal.
      apply map_ext. intros c. apply insert_insert_eq.
    + eexists; eexists; split; reflexivity.
  - simpl. eexists; eexists; split; reflexivity.
Qed.

(** X3. Against a scripted service, whatever its script, [QueryPullRequests]
    returns, and the requests the service has received are: one without a
    cursor, then one for each leading page of the script that reports a next
    page, carrying the end cursor of that page.  Every request holds the
    query, unchanged, and nothing but the query and the cursor. *)
Theorem QueryPullRequests_requests (da : DashboardAgent)
    (answers : list (searchQuery + error)) (query : string) (fuel : nat) :
  (length answers < fuel)%nat ->
  exists stub' records res,
    QueryPullRequests fuel da {| script := answers; received := [] |} query
    = Some (stub', records, res)
    /\ received stub' = map (request query) (None :: map Some (cursors_after answers)).
Proof.
  intros Hfuel. unfold QueryPullRequests.
  destruct (QueryPullRequests_loop_stub answers [] (request query None) [] 0 0 fuel Hfuel)
    as (stub' & ex & Hloop & Hrecv).
  change (<["searchCursor" := VStringPtr None]> (<["query" := VString query]> ∅))
    with (request query None).
  rewrite Hloop.
  assert (Hreq : received stub'
                 = map (request query) (None :: map Some (cursors_after answers))).
  { rewrite Hrecv. cbn [app map]. f_equal. rewrite map_map.
    apply map_ext. intros c. unfold request. apply insert_insert_eq. }
  destruct ex as [err | prs totalCost remaining];
    eexists; eexists; eexists; (split; [reflexivity | exact Hreq]).
Qed.

Lemma QueryPullRequests_requests_witness :
  exists stub' records res,
    QueryPullRequests 4 agent stub_error_on_page2 "is:pr" = Some (stub', records, res)
    /\ received stub' = [request "is:pr" None; request "is:pr" (Some "c40")].
Proof.
  apply (QueryPullRequests_requests agent [inl page1; inr transport_error; inl page3]
           "is:pr" 4).
  simpl. lia.
Defined.

(** ** Query builder and explicit-scope predicate *)

Lemma Split_app_sep (a b : string) (sep : ascii) :
  strings.Split (a +:+ String sep b) sep = strings.Split a sep ++ strings.Split b sep.
Proof.
  induction a as [|c a IH].
  - rewrite append_nil_l. cbn [strings.Split]. rewrite Ascii.eqb_refl. reflexivity.
  - rewrite append_cons. cbn [strings.Split]. rewrite IH.
    destruct (Ascii.eqb c sep); [reflexivity |].
    pose proof (Split_not_nil a sep) as Hnil.
    destruct (strings.Split a sep) as [|t ts]; [contradiction | reflexivity].
Qed.

Lemma queryConstrainsRepos_loop_app (l1 l2 : list string) :
  queryConstrainsRepos_loop (l1 ++ l2)
  = queryConstrainsRepos_loop l1 || queryConstrainsRepos_loop l2.
Proof.
  induction l1 as [|t l1 IH]; [reflexivity |].
  cbn [app queryConstrainsRepos_loop]. rewrite IH.
  now destruct (strings.HasPrefix t "org:" || strings.HasPrefix t "repo:").
Qed.

(** X4. A query made of two queries with a space between them names an
    organisation or a repository exactly when one of the two does. *)
Theorem queryConstrainsRepos_app (a b : string) :
  queryConstrainsRepos (a +:+ " " +:+ b)
  = queryConstrainsRepos a || queryConstrainsRepos b.
Proof.
  unfold queryConstrainsRepos.
  change (a +:+ " " +:+ b) with (a +:+ String " " b).
  rewrite Split_app_sep. apply queryConstrainsRepos_loop_app.
Qed.

Lemma has_byte_app (c : ascii) (a b : string) :
  has_byte c (a +:+ b) = has_byte c a || has_byte c b.
Proof.
  induction a as [|x a IH]; [reflexivity |].
  rewrite append_cons. cbn [has_byte]. rewrite IH. now rewrite orb_assoc.
Qed.

Lemma Split_no_sep (s : string) (sep : ascii) :
  has_byte sep s = false -> strings.Split s sep = [s].
Proof.
  induction s as [|c s IH]; [reflexivity |].
  cbn [has_byte strings.Split]. intros [Hc Hs]%orb_false_iff.
  rewrite Hc, (IH Hs). reflexivity.
Qed.

(** Splitting what was joined gives the elements back, when none of them
    holds the separator. *)
Lemma Split_Join (t : string) (ts : list string) (sep : ascii) :
  Forall (fun tkn => has_byte sep tkn = false) (t :: ts) ->
  strings.Split (strings.Join (t :: ts) (String sep EmptyString)) sep = t :: ts.
Proof.
  unfold strings.Join. revert t.
  induction ts as [|t' ts IH]; intros t Hall.
  - cbn [String.concat]. apply Split_no_sep. now inversion Hall.
  - change (String.concat (String sep EmptyString) (t :: t' :: ts))
      with (t +:+ String sep (String.concat (String sep EmptyString) (t' :: ts))).
    inversion Hall as [|? ? Ht Hrest]; subst.
    rewrite Split_app_sep, (Split_no_sep t sep Ht), (IH t' Hrest). reflexivity.
Qed.

(** X5. When neither the login nor any configured repository holds a space,
    cutting the constructed query at spaces gives back its tokens: [is:pr],
    [state:open], [author:<login>] and one [repo:"<id>"] for each repository,
    in order. *)
Theorem Split_ConstructSearchQuery (da : DashboardAgent) (login : string) :
  has_byte " " login = false ->
  Forall (fun id => has_byte " " id = false) (repos da) ->
  strings.Split (ConstructSearchQuery da login) " "
  = ["is:pr"; "state:open"; "author:" +:+ login] ++ map Sprintf_repo (repos da).
Proof.
  intros Hlogin Hrepos. unfold ConstructSearchQuery.
  rewrite appendRepoTokens_map.
  apply (Split_Join "is:pr" (["state:open"; "author:" +:+ login] ++ map Sprintf_repo (repos da))).
  repeat constructor.
  - rewrite has_byte_app, Hlogin. reflexivity.
  - apply Forall_map. eapply Forall_impl; [exact Hrepos |].
    intros id Hid. unfold Sprintf_repo.
    rewrite !has_byte_app, Hid. reflexivity.
Qed.

Lemma Split_ConstructSearchQuery_witness :
  strings.Split (ConstructSearchQuery agent "alice") " "
  = ["is:pr"; "state:open"; "author:" +:+ "alice"] ++ map Sprintf_repo (repos agent).
Proof.
  apply (Split_ConstructSearchQuery agent "alice").
  - reflexivity.
  - repeat constructor.
Defined.



Lemma prefix_app (a b : string) : String.prefix a (a +:+ b) = true.
Proof.
  induction a as [|c a IH]; [now destruct b |].
  rewrite append_cons. simpl. now destruct (ascii_dec c c).
Qed.

Lemma limitToRepos_scoped (da : DashboardAgent) (query : string) :
  repos da <> [] -> queryConstrainsRepos (limitToRepos da query) = true.
Proof.
  intros Hne. destruct (repos da) as [|v rs] eqn:Hrepos; [contradiction |].
  unfold limitToRepos.
  destruct (queryConstrainsRepos query) eqn:Hq; cbn [negb]; [exact Hq |].
  rewrite fold_left_scope_suffix, Hrepos.
  cbn [scope_suffix]. rewrite queryConstrainsRepos_app.
  destruct (Split_prefix_repo (Sprintf_repo v +:+ scope_suffix rs) eq_refl)
    as (t & ts & Hs & Hp).
  unfold queryConstrainsRepos at 2. rewrite Hs. cbn [queryConstrainsRepos_loop].
  rewrite Hp, orb_true_r, orb_true_r. reflexivity.
Qed.

(** X7. Limiting a query to the configured repositories a second time
    changes nothing. *)
Theorem limitToRepos_idempotent (da : DashboardAgent) (query : string) :
  limitToRepos da (limitToRepos da query) = limitToRepos da query.
Proof.
  destruct (repos da) as [|v rs] eqn:Hrepos.
  - assert (Hid : forall q, limitToRepos da q = q).
    { intros q. unfold limitToRepos. rewrite Hrepos. cbn [fold_left].
      now destruct (negb (queryConstrainsRepos q)). }
    now rewrite !Hid.
  - assert (Hs : queryConstrainsRepos (limitToRepos da query) = true)
      by (apply limitToRepos_scoped; rewrite Hrepos; discriminate).
    set (q' := limitToRepos da query) in *.
    unfold limitToRepos. rewrite Hs. reflexivity.
Qed.

(** X8. With a scope that is not empty, the query the handler hands on
    always names an organisation or a repository, whatever the caller
    supplied; and it always starts with the query it was made from. *)
Theorem limitToRepos_constrains (da : DashboardAgent) (query : string) :
  repos da <> [] ->
  queryConstrainsRepos (limitToRepos da query) = true
  /\ String.prefix query (limitToRepos da query) = true.
Proof.
  intros Hne. split; [now apply limitToRepos_scoped |].
  unfold limitToRepos.
  destruct (negb (queryConstrainsRepos query)).
  - rewrite fold_left_scope_suffix. apply prefix_app.
  - rewrite <- (append_nil_r query) at 2. apply prefix_app.
Qed.

Lemma limitToRepos_constrains_witness :
  queryConstrainsRepos (limitToRepos agent "is:issue author:bob") = true
  /\ String.prefix "is:issue author:bob" (limitToRepos agent "is:issue author:bob") = true.
Proof.
  apply (limitToRepos_constrains agent "is:issue author:bob"). discriminate.
Defined.

(** ** Request handler: the paths the handler can take *)

(** X9. When the session store fails to hand out the session, the handler
    answers with status 500 and the text naming the failed action and the
    error, logs the error, and does nothing else: no remote call, no cookie,
    no save. *)
Theorem HandlePrStatus_store_error (da : DashboardAgent) (env : Collaborators)
    (r : Request) (s : Session) (err : error) :
  CookieStore_Get env = (s, Some err) ->
  HandlePrStatus da env r
  = ({| w := {| SetCookies := [];
                status := Some 500;
                body := server_error_text "Error with getting git token session." err |};
        session := s;
        saves := [];
        log := [WithError_Errorf err "Error %s."
                  [ArgString "Error with getting git token session."]];
        remote_calls := [] |},
      Returned).
Proof.
  intros Hget. unfold HandlePrStatus. rewrite Hget. run_monad.
  unfold server_error_text. rewrite !append_assoc. reflexivity.
Qed.

Lemma HandlePrStatus_store_error_witness :
  status (w (fst (HandlePrStatus agent env_store_fails request_var))) = Some 500
  /\ snd (HandlePrStatus agent env_store_fails request_var) = Returned.
Proof.
  rewrite (HandlePrStatus_store_error agent env_store_fails request_var
             session_without_token store_failure eq_refl).
  split; reflexivity.
Defined.

(** X10. When the session holds no token under the token key, or holds one
    that is no longer valid, the handler makes no remote call, saves no
    session and sets no cookie; it serves the logged-out payload with status
    200. *)
Theorem HandlePrStatus_no_credential (da : DashboardAgent) (env : Collaborators)
    (r : Request) (s0 : Session) :
  CookieStore_Get env = (s0, None) ->
  match Values s0 !! tokenKey with
  | Some (SToken t) => Token_Valid t = false
  | _ => True
  end ->
  let st := fst (HandlePrStatus da env r) in
  snd (HandlePrStatus da env r) = Done {| Login := false; PullRequests := [] |}
  /\ remote_calls st = []
  /\ saves st = []
  /\ SetCookies (w st) = []
  /\ session st = s0
  /\ status (w st) = Some 200.
Proof.
  intros Hget Htok. cbv zeta.
  enough (Hrun : exists st',
             HandlePrStatus da env r = (st', Done {| Login := false; PullRequests := [] |})
             /\ remote_calls st' = [] /\ saves st' = [] /\ SetCookies (w st') = []
             /\ session st' = s0 /\ status (w st') = Some 200)
    by (destruct Hrun as (st' & -> & Hrun); split; [reflexivity | exact Hrun]).
  unfold HandlePrStatus. rewrite Hget.
  assert (Hv : validateToken env
                 match Values s0 !! tokenKey with
                 | Some (SToken t) => Some t
                 | _ => None
                 end (initial_state s0)
               = (initial_state s0, Done None)).
  { destruct (Values s0 !! tokenKey) as [[t | str]|]; try reflexivity.
    unfold validateToken. now rewrite Htok. }
  unfold bind at 1. rewrite Hv. run_monad.
  match goal with |- context [writeResponse env r ?d ?s] =>
    destruct (writeResponse_run env r d s)
      as (st' & -> & Hses & Hsav & Hcalls & Hck & Hst & _) end.
  exists st'. rewrite Hses, Hsav, Hcalls, Hck, Hst. repeat split; reflexivity.
Qed.

Lemma HandlePrStatus_no_credential_witness :
  snd (HandlePrStatus agent env_logged_out request_plain)
  = Done {| Login := false; PullRequests := [] |}
  /\ remote_calls (fst (HandlePrStatus agent env_logged_out request_plain)) = [].
Proof.
  destruct (HandlePrStatus_no_credential agent env_logged_out request_plain
              session_without_token eq_refl I) as (Hres & Hcalls & _).
  split; [exact Hres | exact Hcalls].
Defined.

(** X11. For a valid token, a user with a login, a session that is saved and
    a query handler that succeeds, the handler sets the identity cookie to
    the login with an expiry thirty days ahead, saves the session with the
    login stored beside the token, and serves the pull requests the query
    handler returned with [Login] set and status 200. *)
Theorem HandlePrStatus_logged_in (da : DashboardAgent) (env : Collaborators)
    (r : Request) (s0 : Session) (tok : Token) (user : User) (login : string)
    (prs : list PullRequest) :
  CookieStore_Get env = (s0, None) ->
  Values s0 !! tokenKey = Some (SToken tok) ->
  Token_Valid tok = true ->
  GetUser env (AccessToken tok) = (Some user, None) ->
  User_Login user = Some login ->
  Session_Save env (session_with_login s0 login) = None ->
  queryHandler env (AccessToken tok) githubEndpoint
    (limitToRepos da (chosenQuery da r login)) = (prs, None) ->
  let st := fst (HandlePrStatus da env r) in
  snd (HandlePrStatus da env r) = Done {| Login := true; PullRequests := prs |}
  /\ SetCookies (w st) = [login_cookie (time_Now env) login]
  /\ time_Now env < Expires (login_cookie (time_Now env) login)
  /\ saves st = [(session_with_login s0 login, None)]
  /\ session st = session_with_login s0 login
  /\ Values (session st) !! loginKey = Some (SString login)
  /\ Values (session st) !! tokenKey = Some (SToken tok)
  /\ status (w st) = Some 200.
Proof.
  intros Hget Htok Hvalid Huser Hlogin Hsave Hquery. cbv zeta.
  enough (Hrun : exists st',
             HandlePrStatus da env r = (st', Done {| Login := true; PullRequests := prs |})
             /\ SetCookies (w st') = [login_cookie (time_Now env) login]
             /\ saves st' = [(session_with_login s0 login, None)]
             /\ session st' = session_with_login s0 login
             /\ status (w st') = Some 200).
  { destruct Hrun as (st' & -> & Hck & Hsav & Hses & Hst). cbn [fst snd].
    rewrite Hses. repeat split; try assumption.
    - cbn [login_cookie Expires]. unfold time_Hour. lia.
    - unfold session_with_login. cbn [Values]. apply lookup_insert_eq.
    - unfold session_with_login. cbn [Values].
      rewrite lookup_insert_ne by discriminate. exact Htok. }
  rewrite (HandlePrStatus_with_token da env r s0 tok Hget Htok).
  unfold validateToken. rewrite Hvalid, Huser. run_monad.
  unfold serveUser. rewrite Hlogin. run_monad.
  unfold session_with_login in Hsave. rewrite Hsave. run_monad.
  rewrite Hquery. run_monad.
  match goal with |- context [writeResponse env r ?d ?s] =>
    destruct (writeResponse_run env r d s)
      as (st' & -> & Hses & Hsav & _ & Hck & Hst & _) end.
  exists st'. rewrite Hses, Hsav, Hck, Hst. cbn.
  unfold login_cookie, session_with_login.
  replace (time_Now env + 30 * 24 * time_Hour) with (time_Now env + time_Hour * 24 * 30) by lia.
  repeat split; reflexivity.
Qed.

Lemma HandlePrStatus_logged_in_witness :
  snd (HandlePrStatus agent env_logged_in request_plain)
  = Done {| Login := true; PullRequests := [pr 1; pr 2] |}
  /\ map Value (SetCookies (w (fst (HandlePrStatus agent env_logged_in request_plain))))
     = ["alice"].
Proof.
  destruct (HandlePrStatus_logged_in agent env_logged_in request_plain
              session_with_token token_alice user_alice "alice" [pr 1; pr 2]
              eq_refl eq_refl eq_refl eq_refl eq_refl eq_refl eq_refl)
    as (Hres & Hck & _).
  rewrite Hres, Hck. split; reflexivity.
Defined.

(** X12. When saving the session of a verified user fails, the handler
    answers with status 500 and never calls the query handler; the identity
    cookie, set before the save, stays in the response. *)
Theorem HandlePrStatus_save_failure (da : DashboardAgent) (env : Collaborators)
    (r : Request) (s0 : Session) (tok : Token) (user : User) (login : string)
    (serr : error) :
  CookieStore_Get env = (s0, None) ->
  Values s0 !! tokenKey = Some (SToken tok) ->
  Token_Valid tok = true ->
  GetUser env (AccessToken tok) = (Some user, None) ->
  User_Login user = Some login ->
  Session_Save env (session_with_login s0 login) = Some serr ->
  HandlePrStatus da env r
  = ({| w := {| SetCookies := [login_cookie (time_Now env) login];
                status := Some 500;
                body := server_error_text "Save oauth session" serr |};
        session := session_with_login s0 login;
        saves := [(session_with_login s0 login, Some serr)];
        log := [WithError_Errorf serr "Error %s." [ArgString "Save oauth session"]];
        remote_calls := [CallGetUser (AccessToken tok)] |},
      Returned).
Proof.
  intros Hget Htok Hvalid Huser Hlogin Hsave.
  rewrite (HandlePrStatus_with_token da env r s0 tok Hget Htok).
  unfold validateToken. rewrite Hvalid, Huser. run_monad.
  unfold serveUser. rewrite Hlogin. run_monad.
  unfold session_with_login in *. rewrite Hsave. run_monad.
  unfold login_cookie, server_error_text.
  replace (time_Now env + 30 * 24 * time_Hour) with (time_Now env + time_Hour * 24 * 30) by lia.
  rewrite !append_assoc. reflexivity.
Qed.

Lemma HandlePrStatus_save_failure_witness :
  snd (HandlePrStatus agent env_save_fails request_plain) = Returned
  /\ remote_calls (fst (HandlePrStatus agent env_save_fails request_plain))
     = [CallGetUser "gho_alice"]
  /\ map Value (SetCookies (w (fst (HandlePrStatus agent env_save_fails request_plain))))
     = ["alice"].
Proof.
  rewrite (HandlePrStatus_save_failure agent env_save_fails request_plain
             session_with_token token_alice user_alice "alice" store_failure
             eq_refl eq_refl eq_refl eq_refl eq_refl eq_refl).
  repeat split; reflexivity.
Defined.

(** X13. When the query handler fails, the handler answers with status 500
    and the text of the error, and writes no payload: the pull requests the
    query handler may have returned beside the error are dropped.  The
    session has been saved and the identity cookie set by then. *)
Theorem HandlePrStatus_query_failure (da : DashboardAgent) (env : Collaborators)
    (r : Request) (s0 : Session) (tok : Token) (user : User) (login : string)
    (prs : list PullRequest) (qerr : error) :
  CookieStore_Get env = (s0, None) ->
  Values s0 !! tokenKey = Some (SToken tok) ->
  Token_Valid tok = true ->
  GetUser env (AccessToken tok) = (Some user, None) ->
  User_Login user = Some login ->
  Session_Save env (session_with_login s0 login) = None ->
  queryHandler env (AccessToken tok) githubEndpoint
    (limitToRepos da (chosenQuery da r login)) = (prs, Some qerr) ->
  HandlePrStatus da env r
  = ({| w := {| SetCookies := [login_cookie (time_Now env) login];
                status := Some 500;
                body := server_error_text "Error with querying user data." qerr |};
        session := session_with_login s0 login;
        saves := [(session_with_login s0 login, None)];
        log := [WithError_Errorf qerr "Error %s."
                  [ArgString "Error with querying user data."]];
        remote_calls :=
          [CallGetUser (AccessToken tok);
           CallQueryPullRequests (AccessToken tok) githubEndpoint
             (limitToRepos da (chosenQuery da r login))] |},
      Returned).
Proof.
  intros Hget Htok Hvalid Huser Hlogin Hsave Hquery.
  rewrite (HandlePrStatus_with_token da env r s0 tok Hget Htok).
  unfold validateToken. rewrite Hvalid, Huser. run_monad.
  unfold serveUser. rewrite Hlogin. run_monad.
  unfold session_with_login in *. rewrite Hsave. run_monad.
  rewrite Hquery. run_monad.
  unfold login_cookie, server_error_text.
  replace (time_Now env + 30 * 24 * time_Hour) with (time_Now env + time_Hour * 24 * 30) by lia.
  rewrite !append_assoc. reflexivity.
Qed.

Lemma HandlePrStatus_query_failure_witness :
  snd (HandlePrStatus agent env_query_fails request_var) = Returned
  /\ body (w (fst (HandlePrStatus agent env_query_fails request_var)))
     = server_error_text "Error with querying user data." transport_error.
Proof.
  rewrite (HandlePrStatus_query_failure agent env_query_fails request_var
             session_with_token token_alice user_alice "alice" [pr 1] transport_error
             eq_refl eq_refl eq_refl eq_refl eq_refl eq_refl eq_refl).
  split; reflexivity.
Defined.

(** ** Request handler: what holds on every path *)

(** One step of the case analysis of the handler: the next answer of a
    collaborator, then the monad. *)
Ltac handler_step env r :=
  match goal with
  | |- context [Token_Valid ?t] => destruct (Token_Valid t) eqn:?Hvalid
  | |- context [GetUser env ?t] =>
      destruct (GetUser env t) as [[?user|] [?err|]] eqn:?Huser
  | |- context [rejected ?e] => destruct (rejected e) eqn:?Hrej
  | |- context [Session_Save env ?s] =>
      destruct (Session_Save env s) as [?serr|] eqn:?Hsave
  | |- context [User_Login ?u] => destruct (User_Login u) as [?login|] eqn:?Hlogin
  | |- context [queryHandler env ?a ?b ?c] =>
      destruct (queryHandler env a b c) as [?prs [?qerr|]] eqn:?Hquery
  | |- context [writeResponse env r ?d ?s] =>
      let st' := fresh "st'" in
      destruct (writeResponse_run env r d s)
        as (st' & -> & ?Hses & ?Hsav & ?Hcalls & ?Hck & ?Hst & ?Hlog & ?Hbody)
  end;
  run_monad.

(** All paths of the handler: each goal is left with the final state and the
    outcome of one path. *)
Ltac handler_cases da env r s0 :=
  unfold HandlePrStatus;
  destruct (CookieStore_Get env) as [s0 [?gerr|]] eqn:?Hget;
  [ run_monad
  | destruct (Values s0 !! tokenKey) as [[?tok | ?str]|] eqn:?Htok;
    unfold validateToken, serveUser; run_monad;
    repeat handler_step env r ].

(** X14. The outcome of the handler and the status of the response agree on
    every path.  A handler that runs to its end answers with status 200.  A
    handler that returns early answers with status 500, its body is the text
    naming one failed action and the error, and that error is the one record
    it logged.  A handler that panics has written nothing. *)
Theorem HandlePrStatus_status (da : DashboardAgent) (env : Collaborators) (r : Request) :
  let st := fst (HandlePrStatus da env r) in
  match snd (HandlePrStatus da env r) with
  | Done _ => status (w st) = Some 200
  | Returned =>
      status (w st) = Some 500
      /\ exists action err,
           body (w st) = server_error_text action err
           /\ log st = [WithError_Errorf err "Error %s." [ArgString action]]
  | Panicked => status (w st) = None /\ body (w st) = EmptyString
  end.
Proof.
  cbv zeta. destruct (HandlePrStatus da env r) as [st res] eqn:Hrun.
  cbn [fst snd]. revert Hrun.
  handler_cases da env r s0; intros [= <- <-];
    cbn [body w log status]; rewrite ?append_nil_l, ?append_assoc;
    try (split; [reflexivity |]; eexists; eexists; split; reflexivity);
    try (split; reflexivity);
    try (rewrite Hst; reflexivity).
Qed.

(** X15. On every path the handler reaches the remote service only with a
    valid token taken from the session: it makes no remote call at all, or
    one call of [GetUser], or that call followed by one call of the query
    handler against the GitHub endpoint, both with the access token of the
    session, the second only when [GetUser] handed back a user. *)
Theorem HandlePrStatus_remote_calls (da : DashboardAgent) (env : Collaborators)
    (r : Request) :
  let st := fst (HandlePrStatus da env r) in
  let s0 := fst (CookieStore_Get env) in
  remote_calls st = []
  \/ exists tok,
       Values s0 !! tokenKey = Some (SToken tok)
       /\ Token_Valid tok = true
       /\ (remote_calls st = [CallGetUser (AccessToken tok)]
           \/ exists user query,
                fst (GetUser env (AccessToken tok)) = Some user
                /\ remote_calls st
                   = [CallGetUser (AccessToken tok);
                      CallQueryPullRequests (AccessToken tok) githubEndpoint query]).
Proof.
  cbv zeta. destruct (HandlePrStatus da env r) as [st res] eqn:Hrun.
  cbn [fst snd]. revert Hrun.
  handler_cases da env r s0; intros [= <- <-]; cbn [fst remote_calls];
    rewrite ?Hcalls; cbn [remote_calls];
    try (left; reflexivity);
    right; exists tok; (split; [assumption |]); (split; [assumption |]);
    try (left; reflexivity);
    right; eexists; eexists; rewrite Huser; split; reflexivity.
Qed.

(** X16. Every cookie the handler sets itself is the identity cookie, with
    path [/] and the secure flag, and it sets at most two of them. *)
Theorem HandlePrStatus_cookies (da : DashboardAgent) (env : Collaborators)
    (r : Request) :
  let st := fst (HandlePrStatus da env r) in
  Forall identity_cookie (SetCookies (w st))
  /\ (length (SetCookies (w st)) <= 2)%nat.
Proof.
  cbv zeta. destruct (HandlePrStatus da env r) as [st res] eqn:Hrun.
  cbn [fst snd]. revert Hrun.
  handler_cases da env r s0; intros [= <- <-]; cbn [fst w SetCookies];
    rewrite ?Hck; cbn [w SetCookies];
    (split; [repeat constructor | simpl; lia]).
Qed.

(** X17. The handler panics only when [GetUser], called with the token of
    the session, handed back a user record without a login. *)
Theorem HandlePrStatus_panics (da : DashboardAgent) (env : Collaborators)
    (r : Request) :
  snd (HandlePrStatus da env r) = Panicked ->
  exists tok user,
    Values (fst (CookieStore_Get env)) !! tokenKey = Some (SToken tok)
    /\ fst (GetUser env (AccessToken tok)) = Some user
    /\ User_Login user = None.
Proof.
  destruct (HandlePrStatus da env r) as [st res] eqn:Hrun.
  cbn [fst snd]. revert Hrun.
  handler_cases da env r s0; intros [= <- <-]; cbn [fst]; intros Hres;
    try discriminate Hres;
    exists tok; eexists; rewrite Huser; repeat split; assumption.
Qed.

Lemma HandlePrStatus_panics_witness :
  exists tok user,
    Values (fst (CookieStore_Get env_user_without_login)) !! tokenKey = Some (SToken tok)
    /\ fst (GetUser env_user_without_login (AccessToken tok)) = Some user
    /\ User_Login user = None.
Proof.
  apply (HandlePrStatus_panics agent env_user_without_login request_plain).
  vm_compute. reflexivity.
Defined.

(** X18. On every path the handler leaves the token of the session in
    place: the session it ends with, and every session it has saved, hold
    under the token key what the store handed out.  The max-age of the
    session is left as it was or set to [-1]. *)
Theorem HandlePrStatus_keeps_token (da : DashboardAgent) (env : Collaborators)
    (r : Request) :
  let st := fst (HandlePrStatus da env r) in
  let s0 := fst (CookieStore_Get env) in
  Values (session st) !! tokenKey = Values s0 !! tokenKey
  /\ Forall (fun sv => Values (fst sv) !! tokenKey = Values s0 !! tokenKey) (saves st)
  /\ (Options_MaxAge (session st) = Options_MaxAge s0
      \/ Options_MaxAge (session st) = -1).
Proof.
  cbv zeta. destruct (HandlePrStatus da env r) as [st res] eqn:Hrun.
  cbn [fst snd]. revert Hrun.
  handler_cases da env r s0; intros [= <- <-]; cbn [fst session saves];
    rewrite ?Hses, ?Hsav; cbn [session saves Values Options_MaxAge];
    (split; [| split]);
    try (rewrite lookup_insert_ne by discriminate; reflexivity);
    try reflexivity;
    try (repeat constructor; cbn [fst Values];
         rewrite ?lookup_insert_ne by discriminate; reflexivity);
    try (left; reflexivity);
    try (right; reflexivity).
Qed.
